(** * CanvasDrill: the recoil-drill engine of [components/CanvasDrill.jsx]

    A shallow embedding of the drill component's engine: the refs and the
    React state it keeps, its event handlers, [startSession], [endSession]
    and the body of the per-frame [loop]; with it the score log of the
    application around it, the duration field of the settings form, and the
    click path and metrics of the click trainer ([App.tsx]).

    Conventions of the embedding.
    - A JavaScript number is an exact rational ([Q]); equality of numbers is
      [==] ([Qeq]), and [!==] is its boolean negation.  A division whose
      divisor is zero leaves the rationals (JavaScript answers [Infinity] or
      [NaN]); it is [None] in [jsdiv].
    - [performance.now()], [Math.random()] and the label
      [new Date().toLocaleString()] are inputs of the function that reads them.
    - [Math.hypot] is a parameter of the frame; [hypot6] is an executable
      instance (root to six decimals) used to run concrete sessions.
    - Canvas drawing has no effect on the engine state and is left out.
    - A React state setter ([setRunning], [setCountdown], [setTimeLeft]) writes
      the field that the next render, and so the next frame's closure, reads;
      within a frame the closure's values are the ones of the state the frame
      started from.
    - A callback ([onClickUpdate], [onSessionEnd]) is modelled by the payload
      handed to it. *)

From Stdlib Require Import QArith Qabs Qround Qminmax ZArith List Bool String Lia Lqa.
Import ListNotations.

Local Open Scope Q_scope.

(** ** JavaScript arithmetic on rationals *)

Module Js.

(** [Math.floor], [Math.ceil] as numbers. *)
Definition floor (x : Q) : Q := inject_Z (Qfloor x).
Definition ceil (x : Q) : Q := inject_Z (Qceiling x).

(** [Math.round]: the nearest integer, ties towards +infinity. *)
Definition round (x : Q) : Q := inject_Z (Qfloor (x + (1 # 2))).

(** [Math.max(a, b)], [Math.min(a, b)], [Math.abs]. *)
Definition max (a b : Q) : Q := Qmax a b.
Definition min (a b : Q) : Q := Qmin a b.
Definition abs (x : Q) : Q := Qabs x.

(** Comparisons as the booleans the code branches on. *)
Definition ltb (a b : Q) : bool := negb (Qle_bool b a).
Definition leb (a b : Q) : bool := Qle_bool a b.
Definition gtb (a b : Q) : bool := ltb b a.
Definition neqb (a b : Q) : bool := negb (Qeq_bool a b).

(** Truthiness of a number: every number but zero. *)
Definition truthy (x : Q) : bool := negb (Qeq_bool x 0).

(** [a / b]; [None] when the quotient is not a rational number. *)
Definition jsdiv (a b : Q) : option Q :=
  if Qeq_bool b 0 then None else Some (a / b).

(** [Number(x.toFixed(d))]: [x] rounded to [d] decimals, ties away from zero
    (toFixed takes the sign off, picks the larger candidate, puts it back). *)
Definition pow10 (d : nat) : Q := inject_Z (10 ^ Z.of_nat d).
Definition toFixed (d : nat) (x : Q) : Q :=
  let n := inject_Z (Qfloor (Qabs x * pow10 d + (1 # 2))) in
  (if ltb x 0 then - n else n) / pow10 d.

(** [array.reduce((a, b) => a + b, 0)]. *)
Definition sum (l : list Q) : Q := fold_left Qplus l 0.

(** The length of an array as a number. *)
Definition len {A : Type} (l : list A) : Q := inject_Z (Z.of_nat (List.length l)).

(** A counter as a number. *)
Definition num (n : nat) : Q := inject_Z (Z.of_nat n).

End Js.

(** [clamp(v, a, b)] of the source. *)
Definition clamp (v a b : Q) : Q := Js.min b (Js.max a v).

(** [Math.hypot] to six decimals: an executable stand-in for concrete runs. *)
Definition hypot6 (dx dy : Q) : Q :=
  Z.sqrt (Qfloor ((dx * dx + dy * dy) * inject_Z (10 ^ 12))) # (10 ^ 6).

(** ** Data model *)

Inductive CursorMode : Set := fixed | free.

(** [setg]: the settings the component reads. *)
Record Settings : Type := mkSettings {
  countdownSec : Q;
  durationSec : Q;
  startGraceMs : Q;
  deadZoneY : Q;
  recoilSpeed : Q;
  recoilJitter : Q;
  compensationGain : Q;
  targetRadius : Q;
  showPath : bool;
  showHeatmap : bool;
  crosshairSize : Q;
  cursorMode : CursorMode
}.

Definition DEFAULT_SETTINGS : Settings :=
  {| countdownSec := 3; durationSec := 30; startGraceMs := 250;
     deadZoneY := 1 # 2; recoilSpeed := 220; recoilJitter := 12;
     compensationGain := 1; targetRadius := 22; showPath := true;
     showHeatmap := true; crosshairSize := 16; cursorMode := fixed |}.

Record Point : Type := mkPoint { px : Q; py : Q }.

(** The refs and the React state of the component. *)
Record State : Type := mkState {
  size_w : Q;
  size_h : Q;
  aimRef : Point;
  target : Point;
  lastMouseDy : Q;
  errorHistory : list Q;
  pathPoints : list (Q * Q);
  leftCount : nat;
  midCount : nat;
  rightCount : nat;
  lTimestamps : list Q;
  buttonL : bool;
  buttonM : bool;
  buttonR : bool;
  rafId : bool;                 (* a frame request is pending *)
  startedAtMs : Q;
  countdownStartMs : Q;
  sessionEndAtMs : Q;
  lastSecondShown : Q;
  endTimer : nat;               (* pending [setTimeout(endSession, 0)] calls *)
  running : bool;               (* React state *)
  countdown : Q;                (* React state *)
  timeLeft : Q                  (* React state *)
}.

(** The component as mounted and laid out at [w] x [h]: the ResizeObserver has
    run once, nothing else has happened. *)
Definition mounted (w h : Q) : State :=
  {| size_w := w; size_h := h;
     aimRef := mkPoint (w / 2) (h / 2);
     target := mkPoint 0 0;
     lastMouseDy := 0;
     errorHistory := []; pathPoints := [];
     leftCount := 0; midCount := 0; rightCount := 0;
     lTimestamps := [];
     buttonL := false; buttonM := false; buttonR := false;
     rafId := false;
     startedAtMs := 0; countdownStartMs := 0; sessionEndAtMs := 0;
     lastSecondShown := - (1);
     endTimer := 0;
     running := false; countdown := 0; timeLeft := 0 |}.

(** The payload of [onSessionEnd].  A numeric field is [None] when its value
    is not a finite number. *)
Record Summary : Type := mkSummary {
  endedAt : string;
  s_durationSec : Q;
  avgError : option Q;
  hitRate : option Q;
  shots : nat;
  avgCps : option Q
}.

(** The payload of [onClickUpdate]. *)
Record ClickState : Type := mkClickState {
  c_L : bool;
  c_M : bool;
  c_R : bool;
  cps : nat;
  counts_left : nat;
  counts_mid : nat;
  counts_right : nat
}.

(** What the component hands to its callbacks, in order. *)
Inductive Output : Type :=
| ClickUpdate (c : ClickState)
| SessionEnd (s : Summary).

(** ** Input handlers (the pointer effect of the component) *)

(** [onMouseDown]: [button] is [e.button], [now] is [performance.now()].
    The pointer-lock request it ends with changes none of the refs; whether
    the lock is held comes with each motion event. *)
Definition onMouseDown (button : nat) (now : Q) (st : State) : State :=
  let isL := Nat.eqb button 0 in
  let isM := Nat.eqb button 1 in
  let isR := Nat.eqb button 2 in
  {| size_w := size_w st; size_h := size_h st;
     aimRef := aimRef st; target := target st;
     lastMouseDy := lastMouseDy st;
     errorHistory := errorHistory st; pathPoints := pathPoints st;
     leftCount := if isL then S (leftCount st) else leftCount st;
     midCount := if isM then S (midCount st) else midCount st;
     rightCount := if isR then S (rightCount st) else rightCount st;
     lTimestamps :=
       if isL then lTimestamps st ++ [now / 1000] else lTimestamps st;
     buttonL := if isL then true else buttonL st;
     buttonM := if isM then true else buttonM st;
     buttonR := if isR then true else buttonR st;
     rafId := rafId st;
     startedAtMs := startedAtMs st; countdownStartMs := countdownStartMs st;
     sessionEndAtMs := sessionEndAtMs st;
     lastSecondShown := lastSecondShown st;
     endTimer := endTimer st;
     running := running st; countdown := countdown st;
     timeLeft := timeLeft st |}.

(** [onMouseUp]. *)
Definition onMouseUp (button : nat) (st : State) : State :=
  {| size_w := size_w st; size_h := size_h st;
     aimRef := aimRef st; target := target st;
     lastMouseDy := lastMouseDy st;
     errorHistory := errorHistory st; pathPoints := pathPoints st;
     leftCount := leftCount st; midCount := midCount st;
     rightCount := rightCount st;
     lTimestamps := lTimestamps st;
     buttonL := if Nat.eqb button 0 then false else buttonL st;
     buttonM := if Nat.eqb button 1 then false else buttonM st;
     buttonR := if Nat.eqb button 2 then false else buttonR st;
     rafId := rafId st;
     startedAtMs := startedAtMs st; countdownStartMs := countdownStartMs st;
     sessionEndAtMs := sessionEndAtMs st;
     lastSecondShown := lastSecondShown st;
     endTimer := endTimer st;
     running := running st; countdown := countdown st;
     timeLeft := timeLeft st |}.

(** [onMouseMove].  [locked] is [document.pointerLockElement === canvas];
    [movementX], [movementY] are the event's relative motion ([|| 0] is the
    identity on numbers); [x], [y] are [e.clientX - rect.left] and
    [e.clientY - rect.top]. *)
Definition onMouseMove (setg : Settings) (locked : bool)
    (movementX movementY x y : Q) (st : State) : State :=
  let dy := if locked then movementY else 0 in
  let w := size_w st in
  let h := size_h st in
  let aim :=
    match cursorMode setg with
    | free =>
        if locked
        then mkPoint (clamp (px (aimRef st) + movementX) 0 w)
                     (clamp (py (aimRef st) + movementY) 0 h)
        else mkPoint (clamp x 0 w) (clamp y 0 h)
    | fixed => aimRef st
    end in
  {| size_w := size_w st; size_h := size_h st;
     aimRef := aim; target := target st;
     lastMouseDy := dy;
     errorHistory := errorHistory st; pathPoints := pathPoints st;
     leftCount := leftCount st; midCount := midCount st;
     rightCount := rightCount st;
     lTimestamps := lTimestamps st;
     buttonL := buttonL st; buttonM := buttonM st; buttonR := buttonR st;
     rafId := rafId st;
     startedAtMs := startedAtMs st; countdownStartMs := countdownStartMs st;
     sessionEndAtMs := sessionEndAtMs st;
     lastSecondShown := lastSecondShown st;
     endTimer := endTimer st;
     running := running st; countdown := countdown st;
     timeLeft := timeLeft st |}.

(** The ResizeObserver callback: new layout size, aim point re-centred. *)
Definition onResize (w h : Q) (st : State) : State :=
  {| size_w := w; size_h := h;
     aimRef := mkPoint (w / 2) (h / 2); target := target st;
     lastMouseDy := lastMouseDy st;
     errorHistory := errorHistory st; pathPoints := pathPoints st;
     leftCount := leftCount st; midCount := midCount st;
     rightCount := rightCount st;
     lTimestamps := lTimestamps st;
     buttonL := buttonL st; buttonM := buttonM st; buttonR := buttonR st;
     rafId := rafId st;
     startedAtMs := startedAtMs st; countdownStartMs := countdownStartMs st;
     sessionEndAtMs := sessionEndAtMs st;
     lastSecondShown := lastSecondShown st;
     endTimer := endTimer st;
     running := running st; countdown := countdown st;
     timeLeft := timeLeft st |}.

(** ** [startSession] *)

Definition startSession (setg : Settings) (now : Q) (st : State) : State :=
  let w := size_w st in
  let h := size_h st in
  {| size_w := size_w st; size_h := size_h st;
     aimRef := mkPoint (w / 2) (h / 2);
     target := mkPoint (w / 2) (Js.floor (h * (3 # 4)));
     lastMouseDy := 0;
     errorHistory := []; pathPoints := [];
     leftCount := 0; midCount := 0; rightCount := 0;
     lTimestamps := [];
     buttonL := buttonL st; buttonM := buttonM st; buttonR := buttonR st;
     rafId := rafId st;
     startedAtMs := 0; countdownStartMs := now;
     sessionEndAtMs := 0;
     lastSecondShown := - (1);
     endTimer := endTimer st;
     running := true; countdown := countdownSec setg;
     timeLeft := durationSec setg |}.

(** ** [endSession] *)

Notation "x <- c ;; k" := (match c with Some x => k | None => None end)
  (at level 61, c at next level, right associativity).

(** [avgError] of [endSession], before rounding. *)
Definition meanError (errors : list Q) : option Q :=
  if Js.truthy (Js.len errors)
  then Js.jsdiv (Js.sum errors) (Js.len errors)
  else Some 0.

(** [errors.filter((e) => e <= hitRadius).length]. *)
Definition hitFrames (hitRadius : Q) (errors : list Q) : nat :=
  List.length (filter (fun e => Js.leb e hitRadius) errors).

(** [approxHits] of [endSession]. *)
Definition approxHits (hitRadius : Q) (errors : list Q) (nshots : nat)
  : option Q :=
  if Js.gtb (Js.num nshots) 0 && Js.gtb (Js.len errors) 0
  then q <- Js.jsdiv (Js.num nshots) (Js.len errors) ;;
       Some (Js.round (Js.num (hitFrames hitRadius errors) * q))
  else Some 0.

(** [hitRate] of [endSession], before scaling and rounding. *)
Definition hitRateOf (hitRadius : Q) (errors : list Q) (nshots : nat)
  : option Q :=
  if Js.truthy (Js.num nshots)
  then a <- approxHits hitRadius errors nshots ;; Js.jsdiv a (Js.num nshots)
  else Some 0.

(** [avgCps] of [endSession], before rounding. *)
Definition avgCpsOf (ts : list Q) : option Q :=
  if (2 <=? List.length ts)%nat
  then let dur := last ts 0 - hd 0 ts in
       if Js.gtb dur 0 then Js.jsdiv (Js.len ts) dur else Some 0
  else Some 0.

(** [endSession]: stops the loop, leaves the running state, aggregates the
    statistics and hands them to [onSessionEnd].  [label] is
    [new Date().toLocaleString()]. *)
Definition endSession (setg : Settings) (label : string) (st : State)
  : State * list Output :=
  let st' :=
    {| size_w := size_w st; size_h := size_h st;
       aimRef := aimRef st; target := target st;
       lastMouseDy := lastMouseDy st;
       errorHistory := errorHistory st; pathPoints := pathPoints st;
       leftCount := leftCount st; midCount := midCount st;
       rightCount := rightCount st;
       lTimestamps := lTimestamps st;
       buttonL := buttonL st; buttonM := buttonM st; buttonR := buttonR st;
       rafId := false;
       startedAtMs := startedAtMs st; countdownStartMs := countdownStartMs st;
       sessionEndAtMs := sessionEndAtMs st;
       lastSecondShown := lastSecondShown st;
       endTimer := endTimer st;
       running := false; countdown := 0;
       timeLeft := timeLeft st |} in
  let errors := errorHistory st in
  let avgError := meanError errors in
  let nshots := leftCount st in
  let hitRadius := targetRadius setg in
  let hitRate := hitRateOf hitRadius errors nshots in
  let ts := lTimestamps st in
  let avgCps := avgCpsOf ts in
  (st',
   [SessionEnd
      {| endedAt := label;
         s_durationSec := durationSec setg;
         avgError := option_map (Js.toFixed 1) avgError;
         hitRate := option_map (fun r => Js.toFixed 1 (r * 100)) hitRate;
         shots := nshots;
         avgCps := option_map (Js.toFixed 2) avgCps |}]).

(** ** The frame: the body of [loop] *)

(** [cdLeft]: the countdown still to show at [now]. *)
Definition cdLeftAt (setg : Settings) (now : Q) (st : State) : Q :=
  let cdElapsed := now - countdownStartMs st in
  Js.max 0 (countdownSec setg - Js.floor (cdElapsed / 1000)).

(** The frame belongs to the running phase: [countdown <= 0] in the closure. *)
Definition started (st : State) : bool := Js.leb (countdown st) 0.

(** [startedAtMs.current] after the latch of the session-time block. *)
Definition latchedStart (now : Q) (st : State) : Q :=
  if started st && negb (Js.truthy (startedAtMs st))
  then now else startedAtMs st.

(** [sessionEndAtMs.current] after the latch. *)
Definition latchedEnd (setg : Settings) (now : Q) (st : State) : Q :=
  if started st && negb (Js.truthy (startedAtMs st))
  then latchedStart now st + durationSec setg * 1000
  else sessionEndAtMs st.

(** [upPerSec * dt]: the recoil displacement of the frame, [rnd] being the
    frame's first [Math.random()]. *)
Definition recoilStep (setg : Settings) (rnd : Q) : Q :=
  let upPerSec := recoilSpeed setg + (rnd * 2 - 1) * recoilJitter setg in
  let dt := 1 / 60 in
  upPerSec * dt.

(** [sinceSessionStart] of the motion block. *)
Definition sinceSessionStart (setg : Settings) (now : Q) (st : State) : Q :=
  let cdElapsed := now - countdownStartMs st in
  if Js.truthy (latchedStart now st)
  then now - latchedStart now st
  else cdElapsed - countdownSec setg * 1000.

Definition inGrace (setg : Settings) (now : Q) (st : State) : bool :=
  Js.ltb (sinceSessionStart setg now st) (startGraceMs setg).

(** [dy] after the dead-zone line. *)
Definition deadZoned (setg : Settings) (dy : Q) : Q :=
  if Js.ltb (Js.abs dy) (deadZoneY setg) then 0 else dy.

(** [dy] after the grace line. *)
Definition graced (grace : bool) (dy : Q) : Q :=
  if grace && Js.gtb dy 0 then 0 else dy.

(** [dy] as the compensation uses it: [lastMouseDy.current] through the
    dead-zone and the grace window. *)
Definition effectiveDy (setg : Settings) (now : Q) (st : State) : Q :=
  graced (inGrace setg now st) (deadZoned setg (lastMouseDy st)).

(** [comp]. *)
Definition compensation (setg : Settings) (now : Q) (st : State) : Q :=
  match cursorMode setg with
  | fixed => effectiveDy setg now st * compensationGain setg
  | free => 0
  end.

(** [target.current.y] after the two updates, before the wrap test. *)
Definition movedY (setg : Settings) (now rnd : Q) (st : State) : Q :=
  py (target st) - recoilStep setg rnd + compensation setg now st.

(** The wrap test. *)
Definition wraps (setg : Settings) (now rnd : Q) (st : State) : bool :=
  Js.ltb (movedY setg now rnd st) (- targetRadius setg).

(** The target after the motion block; [rnd1], [rnd2] are the two
    [Math.random()] values in reading order. *)
Definition moveTarget (setg : Settings) (now rnd1 rnd2 : Q) (st : State)
  : Point :=
  if wraps setg now rnd1 st
  then mkPoint (clamp (px (target st) + (rnd2 * 200 - 100))
                      (targetRadius setg)
                      (size_w st - targetRadius setg))
               (size_h st + targetRadius setg)
  else mkPoint (px (target st)) (movedY setg now rnd1 st).

(** [push] followed by one [shift] when the array is longer than [cap]. *)
Definition pushCapped {A : Type} (cap : nat) (l : list A) (x : A) : list A :=
  let l' := l ++ [x] in
  if (cap <? List.length l')%nat then tl l' else l'.

(** The aim point the frame measures against. *)
Definition aimPoint (setg : Settings) (st : State) : Point :=
  match cursorMode setg with
  | free => aimRef st
  | fixed => mkPoint (size_w st / 2) (size_h st / 2)
  end.

Section Frame.

(** [Math.hypot]. *)
Variable hypot : Q -> Q -> Q.

(** The target as the frame leaves it. *)
Definition frameTarget (setg : Settings) (now rnd1 rnd2 : Q) (st : State)
  : Point :=
  if started st then moveTarget setg now rnd1 rnd2 st else target st.

(** [err]: the sample of the frame. *)
Definition frameError (setg : Settings) (now rnd1 rnd2 : Q) (st : State)
  : Q :=
  let t := frameTarget setg now rnd1 rnd2 st in
  let a := aimPoint setg st in
  hypot (px t - px a) (py t - py a).

(** One call of [loop].  [surfaces] tells whether both canvases are there;
    [now] is [performance.now()]. *)
Definition loop (setg : Settings) (surfaces : bool) (now rnd1 rnd2 : Q)
    (st : State) : State * list Output :=
  if negb surfaces then
    ({| size_w := size_w st; size_h := size_h st;
        aimRef := aimRef st; target := target st;
        lastMouseDy := lastMouseDy st;
        errorHistory := errorHistory st; pathPoints := pathPoints st;
        leftCount := leftCount st; midCount := midCount st;
        rightCount := rightCount st;
        lTimestamps := lTimestamps st;
        buttonL := buttonL st; buttonM := buttonM st; buttonR := buttonR st;
        rafId := true;
        startedAtMs := startedAtMs st;
        countdownStartMs := countdownStartMs st;
        sessionEndAtMs := sessionEndAtMs st;
        lastSecondShown := lastSecondShown st;
        endTimer := endTimer st;
        running := running st; countdown := countdown st;
        timeLeft := timeLeft st |}, [])
  else
    (* countdown *)
    let cdLeft := cdLeftAt setg now st in
    let countdown' :=
      if Js.neqb cdLeft (countdown st) then cdLeft else countdown st in
    (* session time *)
    let msLeft := Js.max 0 (latchedEnd setg now st - now) in
    let secLeftRounded := Js.ceil (msLeft / 1000) in
    let tick := started st && Js.neqb secLeftRounded (lastSecondShown st) in
    (* target motion *)
    let target' := frameTarget setg now rnd1 rnd2 st in
    (* path *)
    let path' :=
      if showPath setg
      then pushCapped 800 (pathPoints st) (px target', py target')
      else [] in
    (* error record *)
    let err := frameError setg now rnd1 rnd2 st in
    let errors' := pushCapped 300 (errorHistory st) err in
    (* CPS *)
    let nowS := now / 1000 in
    let ts' := filter (fun t => Js.leb (nowS - t) 1) (lTimestamps st) in
    ({| size_w := size_w st; size_h := size_h st;
        aimRef := aimRef st; target := target';
        lastMouseDy := lastMouseDy st;
        errorHistory := errors'; pathPoints := path';
        leftCount := leftCount st; midCount := midCount st;
        rightCount := rightCount st;
        lTimestamps := ts';
        buttonL := buttonL st; buttonM := buttonM st; buttonR := buttonR st;
        rafId := true;
        startedAtMs := latchedStart now st;
        countdownStartMs := countdownStartMs st;
        sessionEndAtMs := latchedEnd setg now st;
        lastSecondShown :=
          if tick then secLeftRounded else lastSecondShown st;
        endTimer :=
          if tick && Js.leb msLeft 0 then S (endTimer st) else endTimer st;
        running := running st; countdown := countdown';
        timeLeft := if tick then msLeft / 1000 else timeLeft st |},
     [ClickUpdate
        {| c_L := buttonL st; c_M := buttonM st; c_R := buttonR st;
           cps := List.length ts';
           counts_left := leftCount st; counts_mid := midCount st;
           counts_right := rightCount st |}]).

(** ** The component as a machine driven by its host *)

(** What the host can deliver.  [Toggle] is the Space key or the button;
    [Timeout] is a pending [setTimeout(endSession, 0)] coming due. *)
Inductive Event : Type :=
| MouseDown (button : nat) (now : Q)
| MouseUp (button : nat)
| MouseMove (locked : bool) (movementX movementY x y : Q)
| Resize (w h : Q)
| Toggle (now : Q) (label : string)
| Visibility (hidden : bool) (label : string)
| Timeout (label : string)
| Frame (surfaces : bool) (now rnd1 rnd2 : Q).

(** The Space key and the button: [running ? endSession() : startSession()]. *)
Definition onToggle (setg : Settings) (now : Q) (label : string) (st : State)
  : State * list Output :=
  if running st then endSession setg label st
  else (startSession setg now st, []).

(** [onVis]: [if (document.hidden && running) endSession()]. *)
Definition onVis (setg : Settings) (hidden : bool) (label : string)
    (st : State) : State * list Output :=
  if hidden && running st then endSession setg label st else (st, []).

(** A due timer calls [endSession] as it is. *)
Definition onTimeout (setg : Settings) (label : string) (st : State)
  : State * list Output :=
  match endTimer st with
  | O => (st, [])
  | S n =>
      let (st', out) := endSession setg label st in
      ({| size_w := size_w st'; size_h := size_h st';
          aimRef := aimRef st'; target := target st';
          lastMouseDy := lastMouseDy st';
          errorHistory := errorHistory st'; pathPoints := pathPoints st';
          leftCount := leftCount st'; midCount := midCount st';
          rightCount := rightCount st';
          lTimestamps := lTimestamps st';
          buttonL := buttonL st'; buttonM := buttonM st';
          buttonR := buttonR st';
          rafId := rafId st';
          startedAtMs := startedAtMs st';
          countdownStartMs := countdownStartMs st';
          sessionEndAtMs := sessionEndAtMs st';
          lastSecondShown := lastSecondShown st';
          endTimer := n;
          running := running st'; countdown := countdown st';
          timeLeft := timeLeft st' |}, out)
  end.

(** One event.  The loop effect returns at once unless [running] and its
    clean-up cancels the pending request, so a frame reaches [loop] only
    while [running]. *)
Definition step (setg : Settings) (e : Event) (st : State)
  : State * list Output :=
  match e with
  | MouseDown b now => (onMouseDown b now st, [])
  | MouseUp b => (onMouseUp b st, [])
  | MouseMove locked mx my x y => (onMouseMove setg locked mx my x y st, [])
  | Resize w h => (onResize w h st, [])
  | Toggle now label => onToggle setg now label st
  | Visibility hidden label => onVis setg hidden label st
  | Timeout label => onTimeout setg label st
  | Frame surfaces now rnd1 rnd2 =>
      if running st then loop setg surfaces now rnd1 rnd2 st else (st, [])
  end.

(** A run of events, outputs in order. *)
Fixpoint run (setg : Settings) (es : list Event) (st : State)
  : State * list Output :=
  match es with
  | [] => (st, [])
  | e :: es' =>
      let (st1, out1) := step setg e st in
      let (st2, out2) := run setg es' st1 in
      (st2, out1 ++ out2)
  end.

End Frame.

(** The summaries among the outputs. *)
Fixpoint summaries (out : list Output) : list Summary :=
  match out with
  | [] => []
  | SessionEnd s :: out' => s :: summaries out'
  | ClickUpdate _ :: out' => summaries out'
  end.

(** The same state with no pointer motion on record: the yardstick for "the
    delta contributes nothing". *)
Definition stillPointer (st : State) : State :=
  {| size_w := size_w st; size_h := size_h st;
     aimRef := aimRef st; target := target st;
     lastMouseDy := 0;
     errorHistory := errorHistory st; pathPoints := pathPoints st;
     leftCount := leftCount st; midCount := midCount st;
     rightCount := rightCount st;
     lTimestamps := lTimestamps st;
     buttonL := buttonL st; buttonM := buttonM st; buttonR := buttonR st;
     rafId := rafId st;
     startedAtMs := startedAtMs st; countdownStartMs := countdownStartMs st;
     sessionEndAtMs := sessionEndAtMs st;
     lastSecondShown := lastSecondShown st;
     endTimer := endTimer st;
     running := running st; countdown := countdown st;
     timeLeft := timeLeft st |}.

(** The click states among the outputs. *)
Fixpoint clickUpdates (out : list Output) : list ClickState :=
  match out with
  | [] => []
  | ClickUpdate c :: out' => c :: clickUpdates out'
  | SessionEnd _ :: out' => clickUpdates out'
  end.

(** Kinds of events, to delimit runs. *)
Definition isResize (e : Event) : bool :=
  match e with Resize _ _ => true | _ => false end.

Definition isToggle (e : Event) : bool :=
  match e with Toggle _ _ => true | _ => false end.

(** The left-button presses among the events. *)
Definition leftDowns (es : list Event) : nat :=
  List.length
    (filter (fun e => match e with MouseDown 0 _ => true | _ => false end) es).

(** ** The application around the drill ([App.tsx], first component) *)

Module DrillApp.

(** [onSessionEnd]: [setScoreLog(prev => [summary, ...prev].slice(0, 50))]. *)
Definition onSessionEnd (summary : Summary) (prev : list Summary)
  : list Summary :=
  firstn 50 (summary :: prev).

(** The score log once the session-end callback has received the summaries
    of [out], in order. *)
Definition scoreLogAfter (out : list Output) (log : list Summary)
  : list Summary :=
  fold_left (fun l s => onSessionEnd s l) (summaries out) log.

End DrillApp.

(** ** The settings form ([ControlPanel.jsx]) *)

Module ControlPanel.

(** [Number(e.target.value) || d]: the typed text as a number, [None] being
    NaN; NaN and 0 give way to [d]. *)
Definition numberOr (v : option Q) (d : Q) : Q :=
  match v with
  | Some q => if Js.truthy q then q else d
  | None => d
  end.

(** The value the countdown field hands to [updateSetting]. *)
Definition countdownValue (v : option Q) : Q := numberOr v 0.

(** The value the duration field hands to [updateSetting]. *)
Definition durationValue (v : option Q) : Q := Js.max 5 (numberOr v 5).

(** [updateSetting('durationSec', val)]: [{ ...prev, durationSec: val }]. *)
Definition updateDurationSec (val : Q) (prev : Settings) : Settings :=
  {| countdownSec := countdownSec prev; durationSec := val;
     startGraceMs := startGraceMs prev; deadZoneY := deadZoneY prev;
     recoilSpeed := recoilSpeed prev; recoilJitter := recoilJitter prev;
     compensationGain := compensationGain prev;
     targetRadius := targetRadius prev; showPath := showPath prev;
     showHeatmap := showHeatmap prev; crosshairSize := crosshairSize prev;
     cursorMode := cursorMode prev |}.

(** The duration field's [onChange]. *)
Definition onDurationChange (v : option Q) (prev : Settings) : Settings :=
  updateDurationSec (durationValue v) prev.

End ControlPanel.

(** ** The click trainer ([App.tsx], second component)

    The metronome trainer: [registerClick] and the handlers that call it, the
    metrics ([cps], [estBpm], [summary], [progress]).  Audio, the metronome
    scheduling, the countdown interval of [start] and the rendering are left
    out. *)

Module Trainer.

Inductive Rating : Set := PERFECT | GREAT | GOOD | OK | MISS.

Definition Rating_eqb (a b : Rating) : bool :=
  match a, b with
  | PERFECT, PERFECT | GREAT, GREAT | GOOD, GOOD | OK, OK | MISS, MISS => true
  | _, _ => false
  end.

(** An entry of [hits]: [{ t, err, rating, beatIdx }]. *)
Record Hit : Type := mkHit {
  t : Q;
  err : Q;
  rating : Rating;
  beatIdx : Q
}.

(** The settings the click path reads. *)
Record Config : Type := mkConfig {
  bpm : Q;
  durationSec : Q;
  hitWindowMs : Q;
  rmbGate : bool
}.

(** [intervalMs = 60000 / bpm]; the properties below take [bpm] positive. *)
Definition intervalMs (c : Config) : Q := 60000 / bpm c.

(** The state and refs the click path reads and writes. *)
Record TState : Type := mkTState {
  running : bool;
  isCountingDown : bool;
  finished : bool;
  hits : list Hit;
  misses : nat;
  startTimeRef : Q;
  endTimeRef : Q;
  beatIdxRef : Q;
  rmbDownRef : bool;
  recentClicksRef : list Q
}.

(** [list.slice(-n)]: the last [n] entries. *)
Definition lastN {A : Type} (n : nat) (l : list A) : list A :=
  skipn (List.length l - n) l.

(** [while (arr.length && f(arr[0])) arr.shift()]. *)
Fixpoint shiftWhile (f : Q -> bool) (l : list Q) : list Q :=
  match l with
  | [] => []
  | x :: l' => if f x then shiftWhile f l' else l
  end.

(** The beat nearest to the click and the signed distance to it. *)
Definition nearestBeat (c : Config) (start evtTimeMs : Q) : Q :=
  Js.round ((evtTimeMs - start) / intervalMs c).

Definition timingError (c : Config) (start evtTimeMs : Q) : Q :=
  let idx := nearestBeat c start evtTimeMs in
  let ideal := start + idx * intervalMs c in
  evtTimeMs - ideal.

(** The rating ladder of [registerClick]. *)
Definition rate (c : Config) (aerr : Q) : Rating :=
  if Js.leb aerr 20 then PERFECT
  else if Js.leb aerr 40 then GREAT
  else if Js.leb aerr 80 then GOOD
  else if Js.leb aerr (hitWindowMs c) then OK
  else MISS.

(** The ladder's last branch, the one that counts a miss. *)
Definition countsMiss (c : Config) (aerr : Q) : bool :=
  negb (Js.leb aerr 20) && negb (Js.leb aerr 40) && negb (Js.leb aerr 80)
  && negb (Js.leb aerr (hitWindowMs c)).

(** [registerClick(evtTimeMs)]. *)
Definition registerClick (c : Config) (evtTimeMs : Q) (st : TState)
  : TState :=
  if negb (running st) then st
  else if rmbGate c && negb (rmbDownRef st) then st
  else
    let start := startTimeRef st in
    let idx := nearestBeat c start evtTimeMs in
    let err := timingError c start evtTimeMs in
    let aerr := Js.abs err in
    let rating := rate c aerr in
    let misses' := if countsMiss c aerr then S (misses st) else misses st in
    let hits' :=
      if Js.leb aerr (hitWindowMs c)
      then lastN 200 (hits st ++ [mkHit evtTimeMs err rating idx])
      else hits st in
    let cutoff := evtTimeMs - 3000 in
    let recent' :=
      shiftWhile (fun x => Js.ltb x cutoff)
                 (recentClicksRef st ++ [evtTimeMs]) in
    {| running := running st; isCountingDown := isCountingDown st;
       finished := finished st;
       hits := hits'; misses := misses';
       startTimeRef := startTimeRef st; endTimeRef := endTimeRef st;
       beatIdxRef := beatIdxRef st; rmbDownRef := rmbDownRef st;
       recentClicksRef := recent' |}.

(** The global [onMouseDown]: the right button arms the gate, the left one
    registers a click at [now]. *)
Definition onMouseDown (c : Config) (button : nat) (now : Q) (st : TState)
  : TState :=
  let st1 :=
    if Nat.eqb button 2
    then {| running := running st; isCountingDown := isCountingDown st;
            finished := finished st; hits := hits st; misses := misses st;
            startTimeRef := startTimeRef st; endTimeRef := endTimeRef st;
            beatIdxRef := beatIdxRef st; rmbDownRef := true;
            recentClicksRef := recentClicksRef st |}
    else st in
  if Nat.eqb button 0 then registerClick c now st1 else st1.

(** The global [onMouseUp]. *)
Definition onMouseUp (button : nat) (st : TState) : TState :=
  if Nat.eqb button 2
  then {| running := running st; isCountingDown := isCountingDown st;
          finished := finished st; hits := hits st; misses := misses st;
          startTimeRef := startTimeRef st; endTimeRef := endTimeRef st;
          beatIdxRef := beatIdxRef st; rmbDownRef := false;
          recentClicksRef := recentClicksRef st |}
  else st.

(** [onKeyDown]: a fresh press of Space registers a click. *)
Definition onKeyDown (c : Config) (repeat space : bool) (now : Q)
    (st : TState) : TState :=
  if repeat then st
  else if space then registerClick c now st else st.

(** A series of accepted click times, registered in order. *)
Definition registerAll (c : Config) (ts : list Q) (st : TState) : TState :=
  fold_left (fun s x => registerClick c x s) ts st.

(** [cps]. *)
Definition cps (arr : list Q) : option Q :=
  if (List.length arr <? 2)%nat then Some 0
  else
    let span := (last arr 0 - hd 0 arr) / 1000 in
    if Js.leb span 0 then Some 0 else Js.jsdiv (Js.len arr) span.

(** [estBpm]. *)
Definition estBpm (cpsValue : Q) : Q := Js.round (cpsValue * 60).

(** [[...abs].sort((a, b) => a - b)]: ascending order. *)
Fixpoint insertAsc (x : Q) (l : list Q) : list Q :=
  match l with
  | [] => [x]
  | y :: l' => if Js.leb x y then x :: l else y :: insertAsc x l'
  end.

Fixpoint sortAsc (l : list Q) : list Q :=
  match l with
  | [] => []
  | x :: l' => insertAsc x (sortAsc l')
  end.

(** [m[h.rating] = (m[h.rating] || 0) + 1] on an object, keys in insertion
    order. *)
Fixpoint bump (r : Rating) (m : list (Rating * nat)) : list (Rating * nat) :=
  match m with
  | [] => [(r, 1%nat)]
  | (k, n) :: m' =>
      if Rating_eqb k r then (k, S n) :: m' else (k, n) :: bump r m'
  end.

(** The value of [summary] when it is not [null].  [p95] is [None] when the
    index falls outside the array, [mean] and [acc] when they are no finite
    number. *)
Record Summary : Type := mkSummary {
  mean : option Q;
  p95 : option Q;
  counts : list (Rating * nat);
  acc : option Q;
  total : nat
}.

Definition summary (hs : list Hit) (ms : nat) : option Summary :=
  if negb (Js.truthy (Js.len hs)) && negb (Js.truthy (Js.num ms)) then None
  else
    let abs := map (fun h => Js.abs (err h)) hs in
    let mean :=
      if Js.truthy (Js.len abs)
      then Js.jsdiv (Js.sum abs) (Js.len abs) else Some 0 in
    let sorted := sortAsc abs in
    let p95 :=
      if Js.truthy (Js.len sorted)
      then nth_error sorted
             (Z.to_nat (Qfloor (Js.len sorted * (95 # 100))))
      else Some 0 in
    let counts := fold_left (fun m h => bump (rating h) m) hs [] in
    let total := (List.length hs + ms)%nat in
    let acc :=
      if Js.truthy (Js.num total)
      then q <- Js.jsdiv (Js.len hs) (Js.num total) ;;
           Some (Js.round (q * 100))
      else Some 0 in
    Some {| mean := mean; p95 := p95; counts := counts; acc := acc;
            total := total |}.

(** [elapsedMs] and [progress]. *)
Definition elapsedMs (now : Q) (st : TState) : Q :=
  if running st then Js.max 0 (now - startTimeRef st)
  else if finished st then endTimeRef st - startTimeRef st
  else 0.

Definition progress (c : Config) (elapsed : Q) : option Q :=
  let total := durationSec c * 1000 in
  if Js.truthy total
  then option_map (Js.min 1) (Js.jsdiv elapsed total)
  else Some 0.

(** The trainer as shipped: 380 BPM, a 120 ms hit window, no gate. *)
Definition defaults : Config :=
  {| bpm := 380; durationSec := 30; hitWindowMs := 120; rmbGate := false |}.

(** A session running since [start] with nothing registered yet. *)
Definition begun (start : Q) : TState :=
  {| running := true; isCountingDown := false; finished := false;
     hits := []; misses := 0;
     startTimeRef := start; endTimeRef := start + 30000;
     beatIdxRef := 0; rmbDownRef := false; recentClicksRef := [] |}.

End Trainer.






(** ** Concrete sessions used below *)


(** Recoil without jitter, no countdown, no grace window. *)
Definition plainSettings (speed radius : Q) : Settings :=
  {| countdownSec := 0; durationSec := 5; startGraceMs := 0;
     deadZoneY := 1 # 2; recoilSpeed := speed; recoilJitter := 0;
     compensationGain := 1; targetRadius := radius; showPath := true;
     showHeatmap := true; crosshairSize := 16; cursorMode := fixed |}.

(** Start, a left click at 0 s, a frame, a left click at 1 s. *)
Definition twoClicks : list Event :=
  [Toggle 0 "start"; MouseDown 0 0; Frame true 500 (1 # 2) (1 # 2);
   MouseDown 0 1000].

(** A five-second session played to its last frame, which arms the timer. *)
Definition playedOut : list Event :=
  [Toggle 0 "start"; Frame true 16 (1 # 2) (1 # 2);
   Frame true 5016 (1 # 2) (1 # 2)].

(** Start, one frame, the pointer moves down by 6 under pointer lock, and
    the frame that follows. *)
Definition moveThenRest : list Event :=
  [Toggle 1000 "start"; Frame true 1016 (1 # 2) (1 # 2);
   MouseMove true 0 6 0 0; Frame true 1033 (1 # 2) (1 # 2)].

(** [n] frames, 16 ms apart, the first at 16 ms. *)
Definition framesFrom (n : nat) : list Event :=
  map (fun k => Frame true (inject_Z (16 * Z.of_nat k)) (1 # 2) (1 # 2))
      (seq 1 n).

(** At the fastest recoil (20 px a frame) the target climbs from y = 450 to
    y = -30 in 24 frames; then the pointer is pulled down by 60 under pointer
    lock. *)
Definition fastThenPull : list Event :=
  Toggle 0 "start" :: framesFrom 24 ++ [MouseMove true 0 60 0 0].

(** 23 frames at the fastest recoil: the target is at y = -10, one recoil
    step of 20 from leaving by the top with a radius of 22. *)
Definition fastToTheTop : list Event :=
  Toggle 0 "start" :: framesFrom 23.

(** The default three-second countdown runs out, the first running frame
    latches the session start at 3016 ms, then the pointer moves down by 6
    under pointer lock. *)
Definition pullAfterCountdown : list Event :=
  [Toggle 0 "start"; Frame true 3000 (1 # 2) (1 # 2);
   Frame true 3016 (1 # 2) (1 # 2); MouseMove true 0 6 0 0].

(** A session with one running frame, then a pointer motion of a quarter
    pixel under pointer lock. *)
Definition nudged : list Event :=
  [Toggle 1000 "start"; Frame true 1016 (1 # 2) (1 # 2);
   MouseMove true 0 (1 # 4) 0 0].

(** * Properties *)

(** ** Arithmetic of the JavaScript layer *)

Lemma ltb_lt (a b : Q) : Js.ltb a b = true <-> a < b.
Proof.
  unfold Js.ltb. rewrite negb_true_iff.
  split; intro H.
  - apply Qnot_le_lt. intro Hle. apply Qle_bool_iff in Hle. congruence.
  - destruct (Qle_bool b a) eqn:E; [|reflexivity].
    apply Qle_bool_iff in E. exfalso. now apply (Qlt_not_le a b).
Qed.

Lemma ltb_ge (a b : Q) : Js.ltb a b = false <-> b <= a.
Proof.
  unfold Js.ltb. rewrite negb_false_iff. apply Qle_bool_iff.
Qed.

Lemma leb_le (a b : Q) : Js.leb a b = true <-> a <= b.
Proof. apply Qle_bool_iff. Qed.

Lemma gtb_gt (a b : Q) : Js.gtb a b = true <-> b < a.
Proof. apply ltb_lt. Qed.

Lemma gtb_le (a b : Q) : Js.gtb a b = false <-> a <= b.
Proof. apply ltb_ge. Qed.

Lemma truthy_neq (x : Q) : Js.truthy x = true <-> ~ x == 0.
Proof.
  unfold Js.truthy. rewrite negb_true_iff. split; intro H.
  - intro E. apply Qeq_bool_iff in E. congruence.
  - destruct (Qeq_bool x 0) eqn:E; [|reflexivity].
    apply Qeq_bool_iff in E. contradiction.
Qed.

Lemma truthy_eq (x : Q) : Js.truthy x = false <-> x == 0.
Proof.
  unfold Js.truthy. rewrite negb_false_iff. apply Qeq_bool_iff.
Qed.

Lemma jsdiv_some (a b : Q) : ~ b == 0 -> Js.jsdiv a b = Some (a / b).
Proof.
  intro H. unfold Js.jsdiv.
  destruct (Qeq_bool b 0) eqn:E; [|reflexivity].
  apply Qeq_bool_iff in E. contradiction.
Qed.

Lemma num_nonneg (n : nat) : 0 <= Js.num n.
Proof.
  unfold Js.num. change 0 with (inject_Z 0). rewrite <- Zle_Qle. lia.
Qed.

Lemma num_pos (n : nat) : (0 < n)%nat -> 0 < Js.num n.
Proof.
  intro H. unfold Js.num. change 0 with (inject_Z 0). rewrite <- Zlt_Qlt. lia.
Qed.

Lemma num_le (n m : nat) : (n <= m)%nat -> Js.num n <= Js.num m.
Proof.
  intro H. unfold Js.num. rewrite <- Zle_Qle. lia.
Qed.

Lemma len_num {A : Type} (l : list A) : Js.len l = Js.num (List.length l).
Proof. reflexivity. Qed.

Lemma round_le (x y : Q) : x <= y -> Js.round x <= Js.round y.
Proof.
  intro H. unfold Js.round. rewrite <- Zle_Qle.
  apply Qfloor_resp_le. lra.
Qed.

Lemma round_near (x : Q) : x - (1 # 2) < Js.round x /\ Js.round x <= x + (1 # 2).
Proof.
  unfold Js.round. split.
  - pose proof (Qlt_floor (x + (1 # 2))) as H.
    rewrite inject_Z_plus in H. change (inject_Z 1) with 1 in H. lra.
  - apply Qfloor_le.
Qed.

Lemma toFixed_zero (d : nat) (x : Q) : x == 0 -> Js.toFixed d x == 0.
Proof.
  intro Hx. unfold Js.toFixed.
  assert (E : Qfloor (Qabs x * Js.pow10 d + (1 # 2)) = 0%Z).
  { assert (H : Qabs x * Js.pow10 d + (1 # 2) == 1 # 2).
    { rewrite Hx. simpl. ring. }
    rewrite (Qfloor_comp _ _ H). reflexivity. }
  rewrite E.
  assert (L : Js.ltb x 0 = false) by (apply ltb_ge; lra).
  rewrite L. unfold Qdiv. ring.
Qed.

(** ** The aggregates of [endSession] never divide by zero *)

Lemma meanError_some (errors : list Q) :
  meanError errors =
  Some (if Js.truthy (Js.len errors)
        then Js.sum errors / Js.len errors else 0).
Proof.
  unfold meanError.
  destruct (Js.truthy (Js.len errors)) eqn:E; [|reflexivity].
  apply jsdiv_some. now apply truthy_neq.
Qed.

Lemma approxHits_some (radius : Q) (errors : list Q) (n : nat) :
  approxHits radius errors n =
  Some (if Js.gtb (Js.num n) 0 && Js.gtb (Js.len errors) 0
        then Js.round (Js.num (hitFrames radius errors)
                       * (Js.num n / Js.len errors))
        else 0).
Proof.
  unfold approxHits.
  destruct (Js.gtb (Js.num n) 0 && Js.gtb (Js.len errors) 0) eqn:E;
    [|reflexivity].
  apply andb_true_iff in E. destruct E as [_ E]. apply gtb_gt in E.
  rewrite jsdiv_some; [reflexivity|]. intro H. rewrite H in E.
  now apply (Qlt_irrefl 0).
Qed.

Lemma hitRateOf_some (radius : Q) (errors : list Q) (n : nat) :
  hitRateOf radius errors n =
  Some (if Js.truthy (Js.num n)
        then (if Js.gtb (Js.num n) 0 && Js.gtb (Js.len errors) 0
              then Js.round (Js.num (hitFrames radius errors)
                             * (Js.num n / Js.len errors))
              else 0) / Js.num n
        else 0).
Proof.
  unfold hitRateOf. rewrite approxHits_some.
  destruct (Js.truthy (Js.num n)) eqn:E; [|reflexivity].
  apply jsdiv_some. now apply truthy_neq.
Qed.

Lemma avgCpsOf_some (ts : list Q) :
  avgCpsOf ts =
  Some (if (2 <=? List.length ts)%nat
        then if Js.gtb (last ts 0 - hd 0 ts) 0
             then Js.len ts / (last ts 0 - hd 0 ts) else 0
        else 0).
Proof.
  unfold avgCpsOf.
  destruct (2 <=? List.length ts)%nat; [|reflexivity].
  destruct (Js.gtb (last ts 0 - hd 0 ts) 0) eqn:E; [|reflexivity].
  apply gtb_gt in E. apply jsdiv_some. intro H. rewrite H in E.
  now apply (Qlt_irrefl 0).
Qed.

(** C9. Zero-denominator guards: [endSession] always hands over a summary
    whose three computed fields are finite numbers (no quotient with a zero
    divisor is ever formed); the mean error is 0 when the error history is
    empty, the hit-rate is 0 when no left click was counted, and the average
    CPS is 0 when fewer than two timestamps are held or the span from the
    first to the last is not positive. *)
Theorem endSession_guards (setg : Settings) (label : string) (st : State) :
  exists (s : Summary) (e r c : Q),
    snd (endSession setg label st) = [SessionEnd s] /\
    avgError s = Some e /\ hitRate s = Some r /\ avgCps s = Some c /\
    (errorHistory st = [] -> e == 0) /\
    (leftCount st = 0%nat -> r == 0) /\
    ((List.length (lTimestamps st) < 2)%nat \/
     last (lTimestamps st) 0 - hd 0 (lTimestamps st) <= 0 -> c == 0).
Proof.
  unfold endSession; cbn [snd].
  rewrite meanError_some, hitRateOf_some, avgCpsOf_some.
  cbn [option_map avgError hitRate avgCps].
  eexists _, _, _, _.
  split; [reflexivity|]. split; [reflexivity|].
  split; [reflexivity|]. split; [reflexivity|].
  split; [|split].
  - intros ->. now apply toFixed_zero.
  - intros ->. change (Js.truthy (Js.num 0)) with false. cbv iota.
    apply toFixed_zero. ring.
  - intros [H | H].
    + apply Nat.leb_gt in H. rewrite H. now apply toFixed_zero.
    + apply gtb_le in H. rewrite H.
      destruct (2 <=? List.length (lTimestamps st))%nat;
        now apply toFixed_zero.
Qed.

(** An idle component: no history, no clicks. *)
Lemma endSession_guards_witness :
  exists (s : Summary) (e r c : Q),
    snd (endSession DEFAULT_SETTINGS "idle" (mounted 800 600))
      = [SessionEnd s] /\
    avgError s = Some e /\ hitRate s = Some r /\ avgCps s = Some c /\
    e == 0 /\ r == 0 /\ c == 0.
Proof.
  destruct (endSession_guards DEFAULT_SETTINGS "idle" (mounted 800 600))
    as (s & e & r & c & Hs & He & Hr & Hc & G1 & G2 & G3).
  exists s, e, r, c.
  repeat split; try assumption.
  - apply G1. reflexivity.
  - apply G2. reflexivity.
  - apply G3. left. simpl. lia.
Defined.

(** ** Average clicks per second *)

(** Two left clicks at 0 s and 1 s, the session stopped right after the
    second: two shots, both timestamps held, and the summary's average CPS is
    2.00, where (clicks - 1) / (last - first) would be 1. *)
Lemma two_clicks_avgCps_is_two :
  let r := run hypot6 DEFAULT_SETTINGS twoClicks (mounted 800 600) in
  let ts := lTimestamps (fst r) in
  exists (s : Summary) (c : Q),
    snd (endSession DEFAULT_SETTINGS "stop" (fst r)) = [SessionEnd s] /\
    leftCount (fst r) = 2%nat /\ List.length ts = 2%nat /\
    hd 0 ts == 0 /\ last ts 0 == 1 /\
    shots s = 2%nat /\ avgCps s = Some c /\ c == 2 /\
    ~ c == (Js.num (leftCount (fst r)) - 1) / (last ts 0 - hd 0 ts).
Proof.
  vm_compute. eexists _, _.
  repeat (split; [reflexivity|]).
  intro H. discriminate H.
Qed.

(** C1 (as the code has it). When at least two left clicks were counted,
    the timestamp of every one of them is still held at the end, and the span
    from the first to the last is positive, the summary's average CPS is the
    number of clicks divided by that span (not the number less one), rounded
    to two decimals; the shots are the number of clicks. *)
Theorem endSession_avgCps (setg : Settings) (label : string) (st : State) :
  List.length (lTimestamps st) = leftCount st ->
  (2 <= leftCount st)%nat ->
  0 < last (lTimestamps st) 0 - hd 0 (lTimestamps st) ->
  exists s : Summary,
    snd (endSession setg label st) = [SessionEnd s] /\
    shots s = leftCount st /\
    avgCps s =
      Some (Js.toFixed 2
              (Js.num (leftCount st)
               / (last (lTimestamps st) 0 - hd 0 (lTimestamps st)))).
Proof.
  intros Hheld Hlen Hdur.
  unfold endSession; cbn [snd]. rewrite avgCpsOf_some.
  rewrite len_num, Hheld.
  apply Nat.leb_le in Hlen. rewrite Hlen.
  apply gtb_gt in Hdur. rewrite Hdur.
  eexists. split; [reflexivity|]. split; reflexivity.
Qed.

(** The two clicks one second apart: 2 / 1 s, emitted as 2.00, two shots. *)
Lemma endSession_avgCps_witness :
  exists s : Summary,
    snd (endSession DEFAULT_SETTINGS "stop"
           (fst (run hypot6 DEFAULT_SETTINGS twoClicks (mounted 800 600))))
      = [SessionEnd s] /\
    shots s = 2%nat /\
    exists c : Q, avgCps s = Some c /\ c == 2.
Proof.
  destruct (endSession_avgCps DEFAULT_SETTINGS "stop"
              (fst (run hypot6 DEFAULT_SETTINGS twoClicks (mounted 800 600))))
    as (s & Hs & Hshots & Hc).
  - vm_compute. reflexivity.
  - vm_compute. apply le_n.
  - vm_compute. reflexivity.
  - exists s. split; [exact Hs|]. split; [exact Hshots|].
    eexists. split; [exact Hc|]. vm_compute. reflexivity.
Defined.

(** The frame keeps only the timestamps of the trailing second, the ones the
    average is later taken over. *)
Lemma loop_prunes_timestamps (hypot : Q -> Q -> Q) (setg : Settings)
    (now rnd1 rnd2 : Q) (st : State) :
  lTimestamps (fst (loop hypot setg true now rnd1 rnd2 st)) =
  filter (fun t => Js.leb (now / 1000 - t) 1) (lTimestamps st).
Proof. reflexivity. Qed.

(** ** Ending a session *)

(** C2 (the code at a failing input). A five-second session is played to
    the frame that arms the end timer; the user stops it before the timer
    comes due.  The stop emits a summary and leaves the session ended; the
    timer's call of [endSession] on that ended state is no no-op: it emits a
    second summary for the same session, where the toggle and the visibility
    handler would have tested [running] first. *)
Lemma stop_then_timer_emits_twice :
  let setg := plainSettings 220 22 in
  let r := run hypot6 setg playedOut (mounted 800 600) in
  let stopped := step hypot6 setg (Toggle 5017 "stop") (fst r) in
  running (fst r) = true /\ endTimer (fst r) = 1%nat /\
  summaries (snd r) = [] /\
  running (fst stopped) = false /\
  List.length (summaries (snd stopped)) = 1%nat /\
  endSession setg "timer" (fst stopped) <> (fst stopped, []) /\
  List.length
    (summaries (snd (endSession setg "timer" (fst stopped)))) = 1%nat /\
  List.length
    (summaries
       (snd (run hypot6 setg
               (playedOut ++ [Toggle 5017 "stop"; Timeout "timer"])
               (mounted 800 600)))) = 2%nat.
Proof.
  cbv zeta.
  repeat split; try (vm_compute; reflexivity).
  intro H. apply (f_equal snd) in H. vm_compute in H. discriminate H.
Qed.

Lemma endSession_state_idempotent (setg : Settings) (l1 l2 : string)
    (st : State) :
  fst (endSession setg l2 (fst (endSession setg l1 st)))
  = fst (endSession setg l1 st).
Proof. reflexivity. Qed.

(** While the component is not running, no event but a due timer makes it
    hand over a summary. *)
Lemma idle_step_silent (hypot : Q -> Q -> Q) (setg : Settings) (e : Event)
    (st : State) :
  running st = false ->
  match e with Timeout _ => False | _ => True end ->
  summaries (snd (step hypot setg e st)) = [].
Proof.
  intros Hr He.
  destruct e; cbn [step]; try reflexivity; try contradiction.
  - unfold onToggle. rewrite Hr. reflexivity.
  - unfold onVis. rewrite Hr, andb_false_r. reflexivity.
  - rewrite Hr. reflexivity.
Qed.

(** X28. [endSession] carries no guard of its own: every call cancels the
    frame request, leaves the component not running with the countdown at 0
    and hands exactly one summary to the session-end callback, whatever the
    phase; a repeated call changes no state but emits again.  The guard sits
    in the stop triggers: with the session not running, a visibility change
    does nothing and emits nothing, the toggle starts a session without
    emitting, and no event other than a due timer emits a summary. *)
Theorem endSession_unguarded (hypot : Q -> Q -> Q) (setg : Settings)
    (l1 l2 : string) (now : Q) (hidden : bool) (st : State) :
  (exists s : Summary, snd (endSession setg l1 st) = [SessionEnd s]) /\
  rafId (fst (endSession setg l1 st)) = false /\
  running (fst (endSession setg l1 st)) = false /\
  countdown (fst (endSession setg l1 st)) = 0 /\
  fst (endSession setg l2 (fst (endSession setg l1 st)))
    = fst (endSession setg l1 st) /\
  (exists s : Summary,
     snd (endSession setg l2 (fst (endSession setg l1 st)))
       = [SessionEnd s]) /\
  (running st = false ->
     onVis setg hidden l1 st = (st, []) /\
     onToggle setg now l1 st = (startSession setg now st, []) /\
     forall e : Event,
       match e with Timeout _ => False | _ => True end ->
       summaries (snd (step hypot setg e st)) = []).
Proof.
  split; [eexists; reflexivity|]. split; [reflexivity|].
  split; [reflexivity|]. split; [reflexivity|].
  split; [apply endSession_state_idempotent|].
  split; [eexists; reflexivity|].
  intro Hr. split; [|split].
  - unfold onVis. rewrite Hr, andb_false_r. reflexivity.
  - unfold onToggle. rewrite Hr. reflexivity.
  - intros e He. now apply idle_step_silent.
Qed.

(** On the freshly mounted component, which is idle. *)
Lemma endSession_unguarded_witness :
  onVis DEFAULT_SETTINGS true "hidden" (mounted 800 600)
    = (mounted 800 600, []) /\
  onToggle DEFAULT_SETTINGS 0 "hidden" (mounted 800 600)
    = (startSession DEFAULT_SETTINGS 0 (mounted 800 600), []) /\
  summaries
    (snd (step hypot6 DEFAULT_SETTINGS (Visibility true "hidden")
            (mounted 800 600))) = [].
Proof.
  destruct (endSession_unguarded hypot6 DEFAULT_SETTINGS "hidden" "again" 0
              true (mounted 800 600)) as (_ & _ & _ & _ & _ & _ & Idle).
  destruct Idle as (Hv & Ht & He); [reflexivity|].
  split; [exact Hv|]. split; [exact Ht|]. apply He. exact I.
Defined.

(** ** The pointer delta a frame reads *)

(** No frame clears [lastMouseDy]: only [onMouseMove] and [startSession]
    write it. *)
Lemma loop_keeps_lastMouseDy (hypot : Q -> Q -> Q) (setg : Settings)
    (surfaces : bool) (now rnd1 rnd2 : Q) (st : State) :
  lastMouseDy (fst (loop hypot setg surfaces now rnd1 rnd2 st))
  = lastMouseDy st.
Proof. unfold loop. destruct surfaces; reflexivity. Qed.

(** C3 (the code at a failing input). The pointer moves down by 6 once; the
    frame at 1033 ms consumes it.  No pointer event arrives before the frame
    at 1050 ms, yet that frame still reads 6 as its raw delta and moves the
    target by the compensation 6 on top of the recoil step 11/3, where a
    zero input would leave the recoil step alone. *)
Theorem rest_frame_reapplies_delta :
  let setg := plainSettings 220 22 in
  let st2 := fst (run hypot6 setg moveThenRest (mounted 800 600)) in
  let st3 := fst (step hypot6 setg (Frame true 1050 (1 # 2) (1 # 2)) st2) in
  lastMouseDy st2 == 6 /\
  recoilStep setg (1 # 2) == 11 # 3 /\
  compensation setg 1050 st2 == 6 /\
  py (target st3) - py (target st2) == - (11 # 3) + 6 /\
  ~ py (target st3) - py (target st2) == - (11 # 3).
Proof.
  cbv zeta.
  repeat split; try (vm_compute; reflexivity).
  intro H. vm_compute in H. discriminate H.
Qed.

(** ** The hit-rate estimate *)

(** One frame on the target and one off it: with one shot the estimate is
    1, with two shots it is 1/2.  More shots, lower hit-rate. *)
Lemma hitRate_not_monotone :
  exists r1 r2 : Q,
    hitFrames 22 [0; 100] = 1%nat /\
    hitRateOf 22 [0; 100] 1 = Some r1 /\
    hitRateOf 22 [0; 100] 2 = Some r2 /\
    ~ r1 <= r2.
Proof.
  exists 1, (1 # 2).
  repeat split; try (vm_compute; reflexivity).
  intro H. vm_compute in H. apply H. reflexivity.
Qed.

Lemma len_pos {A : Type} (l : list A) : l <> [] -> 0 < Js.len l.
Proof.
  intro H. rewrite len_num. apply num_pos.
  destruct l; [contradiction | simpl; lia].
Qed.

Lemma approxHits_pos (radius : Q) (errors : list Q) (n : nat) :
  (0 < n)%nat -> errors <> [] ->
  approxHits radius errors n =
  Some (Js.round (Js.num (hitFrames radius errors)
                  * (Js.num n / Js.len errors))).
Proof.
  intros Hn He. rewrite approxHits_some.
  assert (G1 : Js.gtb (Js.num n) 0 = true) by (apply gtb_gt; now apply num_pos).
  assert (G2 : Js.gtb (Js.len errors) 0 = true)
    by (apply gtb_gt; now apply len_pos).
  rewrite G1, G2. reflexivity.
Qed.

Lemma hitRateOf_pos (radius : Q) (errors : list Q) (n : nat) :
  (0 < n)%nat ->
  exists a : Q,
    approxHits radius errors n = Some a /\
    hitRateOf radius errors n = Some (a / Js.num n).
Proof.
  intro Hn. unfold hitRateOf.
  assert (T : Js.truthy (Js.num n) = true).
  { apply truthy_neq. intro E. pose proof (num_pos n Hn) as P.
    rewrite E in P. now apply (Qlt_irrefl 0). }
  rewrite T, approxHits_some. eexists. split; [reflexivity|].
  apply jsdiv_some. now apply truthy_neq.
Qed.

(** The estimate of the hit count grows with the shots. *)
Lemma approxHits_le (radius : Q) (errors : list Q) (s1 s2 : nat) (a1 a2 : Q) :
  (0 < s1)%nat -> (s1 <= s2)%nat ->
  approxHits radius errors s1 = Some a1 ->
  approxHits radius errors s2 = Some a2 ->
  a1 <= a2.
Proof.
  intros H1 H12 E1 E2.
  destruct errors as [|e errors'].
  - rewrite approxHits_some in E1, E2.
    change (Js.gtb (Js.len (@nil Q)) 0) with false in E1, E2.
    rewrite andb_false_r in E1, E2.
    injection E1 as <-. injection E2 as <-. apply Qle_refl.
  - set (errors := e :: errors') in *.
    assert (Hne : errors <> []) by discriminate.
    rewrite approxHits_pos in E1 by assumption.
    rewrite approxHits_pos in E2 by (assumption || lia).
    injection E1 as <-. injection E2 as <-.
    apply round_le.
    pose proof (len_pos errors Hne) as Hl.
    pose proof (num_nonneg (hitFrames radius errors)) as Hh.
    pose proof (num_le s1 s2 H12) as Hs.
    apply Qmult_le_compat_nonneg.
    + split; [assumption | apply Qle_refl].
    + split.
      * apply Qle_shift_div_l; [assumption|].
        assert (0 * Js.len errors == 0) as -> by ring. apply num_nonneg.
      * unfold Qdiv. apply Qmult_le_compat_r; [assumption|].
        apply Qlt_le_weak. now apply Qinv_lt_0_compat.
Qed.

(** The hit-rate is the plain fraction of hit frames up to half a shot. *)
Lemma hitRate_near (radius : Q) (errors : list Q) (n : nat) (a : Q) :
  (0 < n)%nat -> errors <> [] ->
  approxHits radius errors n = Some a ->
  Qabs (a / Js.num n - Js.num (hitFrames radius errors) / Js.len errors)
  <= 1 / (2 * Js.num n).
Proof.
  intros Hn Hne E.
  rewrite approxHits_pos in E by assumption. injection E as <-.
  pose proof (len_pos errors Hne) as Hl.
  pose proof (num_pos n Hn) as Hs.
  set (h := Js.num (hitFrames radius errors)) in *.
  set (l := Js.len errors) in *. set (s := Js.num n) in *.
  destruct (round_near (h * (s / l))) as [Lo Hi].
  set (a := Js.round (h * (s / l))) in *.
  assert (Hinv : 0 < / s) by now apply Qinv_lt_0_compat.
  assert (E : a / s - h / l == (a - h * (s / l)) * / s).
  { field. split; intro Z; lra. }
  assert (E2 : 1 / (2 * s) == (1 # 2) * / s).
  { field. intro Z; lra. }
  rewrite E, E2. apply Qabs_Qle_condition. split.
  - assert (- ((1 # 2) * / s) == (- (1 # 2)) * / s) as -> by ring.
    apply Qmult_le_compat_r; lra.
  - apply Qmult_le_compat_r; lra.
Qed.

(** C4 (as the code has it). With the error history fixed and positive shot
    counts s1 <= s2, the estimated number of hits
    round(hitFrames * s / historyLength) does not decrease from s1 to s2; the
    hit-rate is that estimate divided by the shots, and with a non-empty
    history it lies within 1 / (2 s) of hitFrames / historyLength. *)
Theorem approxHits_monotone (radius : Q) (errors : list Q) (s1 s2 : nat) :
  (0 < s1)%nat -> (s1 <= s2)%nat ->
  exists a1 a2 : Q,
    approxHits radius errors s1 = Some a1 /\
    approxHits radius errors s2 = Some a2 /\
    a1 <= a2 /\
    hitRateOf radius errors s1 = Some (a1 / Js.num s1) /\
    hitRateOf radius errors s2 = Some (a2 / Js.num s2) /\
    (errors <> [] ->
     Qabs (a1 / Js.num s1
           - Js.num (hitFrames radius errors) / Js.len errors)
       <= 1 / (2 * Js.num s1) /\
     Qabs (a2 / Js.num s2
           - Js.num (hitFrames radius errors) / Js.len errors)
       <= 1 / (2 * Js.num s2)).
Proof.
  intros H1 H12.
  assert (H2 : (0 < s2)%nat) by lia.
  destruct (hitRateOf_pos radius errors s1 H1) as (a1 & A1 & R1).
  destruct (hitRateOf_pos radius errors s2 H2) as (a2 & A2 & R2).
  exists a1, a2.
  split; [exact A1|]. split; [exact A2|].
  split; [now apply (approxHits_le radius errors s1 s2)|].
  split; [exact R1|]. split; [exact R2|].
  intro Hne. split; now apply hitRate_near.
Qed.

(** One hit frame out of two, one shot against two: the estimate stays at
    one hit. *)
Lemma approxHits_monotone_witness :
  exists a1 a2 : Q,
    approxHits 22 [0; 100] 1 = Some a1 /\
    approxHits 22 [0; 100] 2 = Some a2 /\
    a1 <= a2 /\
    Qabs (a2 / Js.num 2 - Js.num (hitFrames 22 [0; 100]) / Js.len [0; 100])
      <= 1 / (2 * Js.num 2).
Proof.
  destruct (approxHits_monotone 22 [0; 100] 1 2)
    as (a1 & a2 & A1 & A2 & Hle & _ & _ & Hb).
  - lia.
  - lia.
  - exists a1, a2. repeat split; try assumption.
    apply Hb. discriminate.
Defined.

(** ** Target motion and wrap *)

Lemma loop_target (hypot : Q -> Q -> Q) (setg : Settings)
    (now rnd1 rnd2 : Q) (st : State) :
  target (fst (loop hypot setg true now rnd1 rnd2 st))
  = frameTarget setg now rnd1 rnd2 st.
Proof. reflexivity. Qed.

Lemma clamp_within (v a b : Q) : a <= b -> a <= clamp v a b <= b.
Proof.
  intro H. unfold clamp, Js.min, Js.max.
  pose proof (Q.max_spec a v) as M.
  pose proof (Q.min_spec b (Qmax a v)) as N.
  set (m := Qmax a v) in *. set (n := Qmin b m) in *.
  destruct M as [[M1 M2] | [M1 M2]]; destruct N as [[N1 N2] | [N1 N2]];
    split; lra.
Qed.

(** The radius is lowered from 40 to 22 while the target sits at y = -30,
    and the pointer has been pulled down by 60: the state has
    target.y < -radius, yet the next step moves the target to y = 10 and
    does not wrap it. *)
Lemma below_threshold_without_wrap :
  let st :=
    fst (run hypot6 (plainSettings 1200 40) fastThenPull (mounted 800 600)) in
  let setg := plainSettings 1200 22 in
  let st' := fst (step hypot6 setg (Frame true 400 (1 # 2) (1 # 2)) st) in
  running st = true /\ started st = true /\
  py (target st) == - (30) /\
  py (target st) < - targetRadius setg /\
  py (target st') == 10 /\
  ~ py (target st') == size_h st + targetRadius setg.
Proof.
  cbv zeta.
  repeat split; try (vm_compute; reflexivity).
  intro H. vm_compute in H. discriminate H.
Qed.

(** C5 (as the code has it). In a frame of the running phase the wrap test
    reads target.y after the frame's recoil and compensation: when that y is
    below -radius the frame sets target.y = height + radius and target.x to
    the old x plus an offset 200 * random - 100, which lies in [-100, 100),
    clamped to [radius, width - radius]; a state already below -radius wraps
    in the next such frame whenever the compensation does not exceed the
    recoil step.  Otherwise the frame leaves target.x alone: without a wrap
    only y moves, and in the countdown the target does not move at all. *)
Theorem wrap_rule (hypot : Q -> Q -> Q) (setg : Settings)
    (now rnd1 rnd2 : Q) (st : State) :
  let r := targetRadius setg in
  let t := target st in
  let t' := target (fst (loop hypot setg true now rnd1 rnd2 st)) in
  let off := rnd2 * 200 - 100 in
  (started st = true -> movedY setg now rnd1 st < - r ->
     py t' = size_h st + r /\
     px t' = clamp (px t + off) r (size_w st - r) /\
     (0 <= rnd2 /\ rnd2 < 1 -> - (100) <= off /\ off < 100) /\
     (r <= size_w st - r -> r <= px t' <= size_w st - r)) /\
  (started st = true -> py t < - r ->
     compensation setg now st <= recoilStep setg rnd1 ->
     py t' = size_h st + r) /\
  (started st = true -> - r <= movedY setg now rnd1 st ->
     t' = mkPoint (px t) (movedY setg now rnd1 st)) /\
  (started st = false -> t' = t).
Proof.
  cbv zeta. rewrite loop_target. unfold frameTarget, moveTarget.
  split; [|split; [|split]].
  - intros Hs Hy. rewrite Hs.
    assert (W : wraps setg now rnd1 st = true) by now apply ltb_lt.
    rewrite W. cbn [px py].
    split; [reflexivity|]. split; [reflexivity|]. split.
    + intros [H0 H1]. split; lra.
    + apply clamp_within.
  - intros Hs Hy Hc. rewrite Hs.
    assert (W : wraps setg now rnd1 st = true).
    { apply ltb_lt. unfold movedY. lra. }
    rewrite W. reflexivity.
  - intros Hs Hy. rewrite Hs.
    assert (W : wraps setg now rnd1 st = false) by now apply ltb_ge.
    rewrite W. reflexivity.
  - intros Hs. rewrite Hs. reflexivity.
Qed.

(** The 24th frame at the fastest recoil takes the target from -10 to -30,
    below -22: it reappears at y = 600 + 22 with x inside the playfield. *)
Lemma wrap_rule_witness :
  let setg := plainSettings 1200 22 in
  let st := fst (run hypot6 setg fastToTheTop (mounted 800 600)) in
  let t' := target (fst (loop hypot6 setg true 384 (1 # 2) (1 # 2) st)) in
  py t' = size_h st + targetRadius setg /\
  targetRadius setg <= px t' <= size_w st - targetRadius setg.
Proof.
  cbv zeta.
  destruct (wrap_rule hypot6 (plainSettings 1200 22) 384 (1 # 2) (1 # 2)
              (fst (run hypot6 (plainSettings 1200 22) fastToTheTop
                      (mounted 800 600)))) as [W _].
  destruct W as (Hy & _ & _ & Hin).
  - vm_compute. reflexivity.
  - vm_compute. reflexivity.
  - split; [exact Hy|]. apply Hin. vm_compute. discriminate.
Defined.

(** ** Dead-zone and grace window *)

Lemma graced_zero (grace : bool) : graced grace 0 = 0.
Proof. unfold graced. destruct grace; reflexivity. Qed.

Lemma deadZoned_keeps (setg : Settings) (dy : Q) :
  deadZoneY setg <= Qabs dy -> deadZoned setg dy = dy.
Proof.
  intro H. unfold deadZoned.
  assert (L : Js.ltb (Js.abs dy) (deadZoneY setg) = false) by now apply ltb_ge.
  rewrite L. reflexivity.
Qed.

Lemma effectiveDy_still (setg : Settings) (now : Q) (st : State) :
  effectiveDy setg now (stillPointer st) = 0.
Proof.
  unfold effectiveDy, deadZoned. cbn [lastMouseDy stillPointer].
  destruct (Js.ltb (Js.abs 0) (deadZoneY setg)); apply graced_zero.
Qed.

(** A frame whose effective delta is 0 treats the target as a frame with no
    pointer motion on record does. *)
Lemma frameTarget_still (setg : Settings) (now rnd1 rnd2 : Q) (st : State) :
  effectiveDy setg now st = 0 ->
  frameTarget setg now rnd1 rnd2 st
  = frameTarget setg now rnd1 rnd2 (stillPointer st).
Proof.
  intro E.
  unfold frameTarget, moveTarget, wraps, movedY, compensation.
  rewrite E, effectiveDy_still. reflexivity.
Qed.

Lemma movedY_no_comp (setg : Settings) (now rnd : Q) (st : State) :
  compensation setg now st == 0 ->
  movedY setg now rnd st == py (target st) - recoilStep setg rnd.
Proof. intro H. unfold movedY. rewrite H. ring. Qed.

(** In the running phase the elapsed time is counted from the latched
    session start, which is the frame's own time when nothing was latched. *)
Lemma sinceSessionStart_latched (setg : Settings) (now : Q) (st : State) :
  started st = true -> ~ now == 0 ->
  sinceSessionStart setg now st = now - latchedStart now st /\
  (startedAtMs st == 0 -> latchedStart now st = now).
Proof.
  intros Hs Hn. unfold sinceSessionStart, latchedStart. rewrite Hs.
  destruct (Js.truthy (startedAtMs st)) eqn:T; cbn [andb negb].
  - rewrite T. split; [reflexivity|].
    intro Z. apply truthy_neq in T. contradiction.
  - apply truthy_neq in Hn. rewrite Hn. split; reflexivity.
Qed.

(** C6. Grace window: in a frame whose pointer delta is positive (downward)
    and at least the dead-zone in magnitude, the delta is zeroed and adds
    nothing to target.y when the time elapsed since the session start is
    below startGraceMs, and it is kept as it is when that time is at least
    startGraceMs; a negative (upward) delta of at least the dead-zone is kept
    whatever the elapsed time.  The elapsed time of a running frame is
    counted from the latched session start. *)
Theorem grace_window (setg : Settings) (now rnd : Q) (st : State) :
  let dy := lastMouseDy st in
  let elapsed := sinceSessionStart setg now st in
  (0 < dy -> deadZoneY setg <= Qabs dy -> elapsed < startGraceMs setg ->
     effectiveDy setg now st = 0 /\
     compensation setg now st == 0 /\
     movedY setg now rnd st == py (target st) - recoilStep setg rnd /\
     forall rnd2 : Q,
       frameTarget setg now rnd rnd2 st
       = frameTarget setg now rnd rnd2 (stillPointer st)) /\
  (0 < dy -> deadZoneY setg <= Qabs dy -> startGraceMs setg <= elapsed ->
     effectiveDy setg now st = dy /\
     (cursorMode setg = fixed ->
      movedY setg now rnd st
        == py (target st) - recoilStep setg rnd
           + dy * compensationGain setg)) /\
  (dy < 0 -> deadZoneY setg <= Qabs dy -> effectiveDy setg now st = dy) /\
  (started st = true -> ~ now == 0 ->
     elapsed = now - latchedStart now st).
Proof.
  cbv zeta. split; [|split; [|split]].
  - intros Hpos Hdz Hel.
    assert (E : effectiveDy setg now st = 0).
    { unfold effectiveDy. rewrite deadZoned_keeps by assumption.
      unfold graced, inGrace.
      assert (G : Js.ltb (sinceSessionStart setg now st) (startGraceMs setg)
                  = true) by now apply ltb_lt.
      assert (P : Js.gtb (lastMouseDy st) 0 = true) by now apply gtb_gt.
      rewrite G, P. reflexivity. }
    assert (C : compensation setg now st == 0).
    { unfold compensation. rewrite E. destruct (cursorMode setg); ring. }
    split; [exact E|]. split; [exact C|].
    split; [now apply movedY_no_comp|].
    intro rnd2. now apply frameTarget_still.
  - intros Hpos Hdz Hel.
    assert (E : effectiveDy setg now st = lastMouseDy st).
    { unfold effectiveDy. rewrite deadZoned_keeps by assumption.
      unfold graced, inGrace.
      assert (G : Js.ltb (sinceSessionStart setg now st) (startGraceMs setg)
                  = false) by now apply ltb_ge.
      rewrite G. reflexivity. }
    split; [exact E|]. intro Hm. unfold movedY, compensation.
    rewrite Hm, E. reflexivity.
  - intros Hneg Hdz.
    unfold effectiveDy. rewrite deadZoned_keeps by assumption.
    unfold graced.
    assert (P : Js.gtb (lastMouseDy st) 0 = false) by (apply gtb_le; lra).
    rewrite P, andb_false_r. reflexivity.
  - intros Hs Hn. now apply sinceSessionStart_latched.
Qed.

(** C7. Dead-zone: in a frame in fixed cursor mode whose pointer delta is
    smaller in magnitude than the dead-zone, the delta is taken as 0, the
    compensation is 0, and target.y moves by the recoil step alone: the frame
    leaves the target exactly where a frame with no pointer motion on record
    leaves it, and short of a wrap that is the old y less the recoil step. *)
Theorem dead_zone (hypot : Q -> Q -> Q) (setg : Settings)
    (now rnd1 rnd2 : Q) (st : State) :
  cursorMode setg = fixed ->
  Qabs (lastMouseDy st) < deadZoneY setg ->
  effectiveDy setg now st = 0 /\
  compensation setg now st == 0 /\
  movedY setg now rnd1 st == py (target st) - recoilStep setg rnd1 /\
  target (fst (loop hypot setg true now rnd1 rnd2 st))
    = target (fst (loop hypot setg true now rnd1 rnd2 (stillPointer st))) /\
  (started st = true ->
   - targetRadius setg <= py (target st) - recoilStep setg rnd1 ->
   py (target (fst (loop hypot setg true now rnd1 rnd2 st)))
     == py (target st) - recoilStep setg rnd1 /\
   px (target (fst (loop hypot setg true now rnd1 rnd2 st)))
     = px (target st)).
Proof.
  intros Hm Hdz.
  assert (E : effectiveDy setg now st = 0).
  { unfold effectiveDy, deadZoned.
    assert (L : Js.ltb (Js.abs (lastMouseDy st)) (deadZoneY setg) = true)
      by now apply ltb_lt.
    rewrite L. apply graced_zero. }
  assert (C : compensation setg now st == 0).
  { unfold compensation. rewrite Hm, E. ring. }
  pose proof (movedY_no_comp setg now rnd1 st C) as M.
  split; [exact E|]. split; [exact C|]. split; [exact M|].
  split; [rewrite !loop_target; now apply frameTarget_still|].
  intros Hs Hy. rewrite loop_target. unfold frameTarget, moveTarget.
  rewrite Hs.
  assert (W : wraps setg now rnd1 st = false).
  { apply ltb_ge. rewrite M. exact Hy. }
  rewrite W. cbn [px py]. split; [exact M | reflexivity].
Qed.

(** A pull of 6 after the default countdown: dropped 84 ms into the session,
    kept 284 ms into it (the grace window is 250 ms). *)
Lemma grace_window_witness :
  let st :=
    fst (run hypot6 DEFAULT_SETTINGS pullAfterCountdown (mounted 800 600)) in
  effectiveDy DEFAULT_SETTINGS 3100 st = 0 /\
  effectiveDy DEFAULT_SETTINGS 3300 st = lastMouseDy st /\
  sinceSessionStart DEFAULT_SETTINGS 3300 st = 3300 - latchedStart 3300 st.
Proof.
  cbv zeta.
  pose proof (grace_window DEFAULT_SETTINGS 3100 (1 # 2)
                (fst (run hypot6 DEFAULT_SETTINGS pullAfterCountdown
                        (mounted 800 600)))) as [In _].
  pose proof (grace_window DEFAULT_SETTINGS 3300 (1 # 2)
                (fst (run hypot6 DEFAULT_SETTINGS pullAfterCountdown
                        (mounted 800 600)))) as (_ & Out & _ & El).
  split; [|split].
  - apply In; vm_compute; (reflexivity || discriminate).
  - apply Out; vm_compute; (reflexivity || discriminate).
  - apply El; [vm_compute; reflexivity | vm_compute; discriminate].
Defined.

(** A quarter pixel is inside the default half-pixel dead-zone. *)
Lemma dead_zone_witness :
  let setg := plainSettings 220 22 in
  let st := fst (run hypot6 setg nudged (mounted 800 600)) in
  effectiveDy setg 1033 st = 0 /\
  compensation setg 1033 st == 0 /\
  py (target (fst (loop hypot6 setg true 1033 (1 # 2) (1 # 2) st)))
    == py (target st) - recoilStep setg (1 # 2).
Proof.
  cbv zeta.
  destruct (dead_zone hypot6 (plainSettings 220 22) 1033 (1 # 2) (1 # 2)
              (fst (run hypot6 (plainSettings 220 22) nudged
                      (mounted 800 600)))) as (E & C & _ & _ & L).
  - reflexivity.
  - vm_compute. reflexivity.
  - split; [exact E|]. split; [exact C|].
    apply L; [vm_compute; reflexivity | vm_compute; discriminate].
Defined.

(** ** Starting a session *)

(** On a playfield 450 px high the target starts at y = 337, not at
    337.5. *)
Lemma start_target_below_three_quarters :
  let st := startSession DEFAULT_SETTINGS 0 (mounted 800 450) in
  size_h st == 450 /\
  py (target st) == 337 /\
  ~ py (target st) == (3 # 4) * size_h st.
Proof.
  cbv zeta.
  repeat split; try (vm_compute; reflexivity).
  intro H. vm_compute in H. discriminate H.
Qed.

Lemma floor_near (x : Q) : x - 1 < Js.floor x /\ Js.floor x <= x.
Proof.
  unfold Js.floor. split.
  - pose proof (Qlt_floor x) as H. rewrite inject_Z_plus in H.
    change (inject_Z 1) with 1 in H. lra.
  - apply Qfloor_le.
Qed.

(** C8 (as the code has it). For all settings, [startSession] empties the
    error history, the path history and the left-click timestamp sequence,
    zeroes the three click counters, and puts the target at the horizontal
    centre and at the floor of 75% of the playfield height, less than one
    pixel above the 75% line.  This happens before any frame of the new
    session: while the component is not running no frame reaches the loop,
    and it is the toggle's [startSession] that sets it running. *)
Theorem startSession_resets (hypot : Q -> Q -> Q) (setg : Settings)
    (now : Q) (label : string) (st : State) :
  let st' := startSession setg now st in
  errorHistory st' = [] /\ pathPoints st' = [] /\
  leftCount st' = 0%nat /\ midCount st' = 0%nat /\ rightCount st' = 0%nat /\
  lTimestamps st' = [] /\
  px (target st') = size_w st / 2 /\
  py (target st') = Js.floor (size_h st * (3 # 4)) /\
  (size_h st * (3 # 4) - 1 < py (target st') /\
   py (target st') <= size_h st * (3 # 4)) /\
  running st' = true /\
  (running st = false ->
   (forall (surfaces : bool) (t rnd1 rnd2 : Q),
      step hypot setg (Frame surfaces t rnd1 rnd2) st = (st, [])) /\
   step hypot setg (Toggle now label) st = (st', [])).
Proof.
  cbv zeta. cbn [startSession errorHistory pathPoints leftCount midCount
                 rightCount lTimestamps target px py running].
  repeat (split; [reflexivity|]).
  split; [apply floor_near|].
  split; [reflexivity|].
  intro Hr. split.
  - intros. cbn [step]. rewrite Hr. reflexivity.
  - cbn [step]. unfold onToggle. rewrite Hr. reflexivity.
Qed.

(** The idle component after a session with clicks: the toggle starts the
    next session from empty statistics. *)
Lemma startSession_resets_witness :
  let st :=
    fst (run hypot6 DEFAULT_SETTINGS (twoClicks ++ [Toggle 1000 "stop"])
           (mounted 800 600)) in
  leftCount st = 2%nat /\
  leftCount (fst (step hypot6 DEFAULT_SETTINGS (Toggle 2000 "go") st))
    = 0%nat /\
  errorHistory (fst (step hypot6 DEFAULT_SETTINGS (Toggle 2000 "go") st))
    = [] /\
  step hypot6 DEFAULT_SETTINGS (Frame true 1500 (1 # 2) (1 # 2)) st
    = (st, []).
Proof.
  cbv zeta.
  destruct (startSession_resets hypot6 DEFAULT_SETTINGS 2000 "go"
              (fst (run hypot6 DEFAULT_SETTINGS
                      (twoClicks ++ [Toggle 1000 "stop"]) (mounted 800 600))))
    as (He & _ & Hl & _ & _ & _ & _ & _ & _ & _ & Hidle).
  destruct Hidle as [Hf Ht]; [vm_compute; reflexivity|].
  split; [vm_compute; reflexivity|].
  rewrite Ht. cbn [fst].
  split; [exact Hl|]. split; [exact He|]. apply Hf.
Defined.

(** ** Sampling in every frame *)












(** * Further properties of the drill engine *)

(** ** [clamp] *)

(** X1. With its bounds in order, [clamp] returns a value between them,
    returns its argument when that already lies between them, and returns
    the nearer bound otherwise; with the bounds crossed (a > b) it returns
    the upper one, b, whatever the argument. *)
Theorem clamp_spec (v a b : Q) :
  (a <= b ->
   a <= clamp v a b <= b /\
   (a <= v <= b -> clamp v a b == v) /\
   (v <= a -> clamp v a b == a) /\
   (b <= v -> clamp v a b == b)) /\
  (b < a -> clamp v a b == b).
Proof.
  unfold clamp, Js.min, Js.max.
  pose proof (Q.max_spec a v) as M.
  pose proof (Q.min_spec b (Qmax a v)) as N.
  set (m := Qmax a v) in *. set (n := Qmin b m) in *.
  split.
  - intro Hab. repeat split; intros;
      destruct M as [[M1 M2] | [M1 M2]]; destruct N as [[N1 N2] | [N1 N2]];
      lra.
  - intro Hba.
    destruct M as [[M1 M2] | [M1 M2]]; destruct N as [[N1 N2] | [N1 N2]];
      lra.
Qed.

Lemma clamp_spec_witness :
  0 <= clamp 850 0 800 <= 800 /\ clamp 850 0 800 == 800 /\
  clamp 400 22 (30 - 22) == 30 - 22.
Proof.
  destruct (clamp_spec 850 0 800) as [In _].
  destruct In as (R & _ & _ & Hi); [lra|].
  destruct (clamp_spec 400 22 (30 - 22)) as [_ Crossed].
  split; [exact R|]. split; [apply Hi; lra | apply Crossed; lra].
Defined.

(** ** Pointer motion *)

(** X2. In free cursor mode every pointer motion, locked or not, leaves the
    aim point inside the playfield [0, w] x [0, h]; in fixed mode no pointer
    motion moves the stored aim point. *)
Theorem onMouseMove_aim (setg : Settings) (locked : bool)
    (movementX movementY x y : Q) (st : State) :
  let st' := onMouseMove setg locked movementX movementY x y st in
  (cursorMode setg = free -> 0 <= size_w st -> 0 <= size_h st ->
   0 <= px (aimRef st') <= size_w st /\ 0 <= py (aimRef st') <= size_h st) /\
  (cursorMode setg = fixed -> aimRef st' = aimRef st).
Proof.
  cbv zeta. unfold onMouseMove; cbn [aimRef]. split.
  - intros Hm Hw Hh. rewrite Hm.
    destruct locked; cbn [px py];
      split; now apply clamp_within.
  - intros Hm. rewrite Hm. reflexivity.
Qed.

(** The default settings with the cursor set free. *)
Lemma onMouseMove_aim_witness :
  let free_setg :=
    {| countdownSec := 3; durationSec := 30; startGraceMs := 250;
       deadZoneY := 1 # 2; recoilSpeed := 220; recoilJitter := 12;
       compensationGain := 1; targetRadius := 22; showPath := true;
       showHeatmap := true; crosshairSize := 16; cursorMode := free |} in
  let st' := onMouseMove free_setg true 900 (- (900)) 0 0 (mounted 800 600) in
  (0 <= px (aimRef st') <= 800 /\ 0 <= py (aimRef st') <= 600) /\
  aimRef (onMouseMove DEFAULT_SETTINGS true 900 (- (900)) 0 0
            (mounted 800 600))
    = aimRef (mounted 800 600).
Proof.
  cbv zeta. split.
  - apply (onMouseMove_aim
             {| countdownSec := 3; durationSec := 30; startGraceMs := 250;
                deadZoneY := 1 # 2; recoilSpeed := 220; recoilJitter := 12;
                compensationGain := 1; targetRadius := 22; showPath := true;
                showHeatmap := true; crosshairSize := 16;
                cursorMode := free |}
             true 900 (- (900)) 0 0 (mounted 800 600));
      [reflexivity | vm_compute; discriminate | vm_compute; discriminate].
  - apply (onMouseMove_aim DEFAULT_SETTINGS
             true 900 (- (900)) 0 0 (mounted 800 600)).
    reflexivity.
Defined.

(** X3. A frame sees the vertical movement of the latest pointer event
    only: a second motion event replaces the first one's delta instead of
    adding to it, and an event that arrives without pointer lock sets the
    delta to 0, so the frame after it applies no compensation and moves the
    target as with no motion on record. *)
Theorem onMouseMove_latest_only (setg : Settings) (l1 l2 : bool)
    (mx1 my1 x1 y1 mx2 my2 x2 y2 now rnd1 rnd2 : Q) (st : State) :
  let once := onMouseMove setg l1 mx1 my1 x1 y1 st in
  let twice := onMouseMove setg l2 mx2 my2 x2 y2 once in
  lastMouseDy twice = (if l2 then my2 else 0) /\
  (l2 = false ->
   compensation setg now twice == 0 /\
   frameTarget setg now rnd1 rnd2 twice
   = frameTarget setg now rnd1 rnd2 (stillPointer twice)).
Proof.
  cbv zeta. split; [reflexivity|].
  intros ->.
  assert (E : effectiveDy setg now
                (onMouseMove setg false mx2 my2 x2 y2
                   (onMouseMove setg l1 mx1 my1 x1 y1 st)) = 0).
  { unfold effectiveDy, deadZoned. cbn [lastMouseDy onMouseMove].
    destruct (Js.ltb (Js.abs 0) (deadZoneY setg)); apply graced_zero. }
  split.
  - unfold compensation. rewrite E. destruct (cursorMode setg); ring.
  - now apply frameTarget_still.
Qed.

Lemma onMouseMove_latest_only_witness :
  let st :=
    onMouseMove DEFAULT_SETTINGS false 0 9 0 0
      (onMouseMove DEFAULT_SETTINGS true 0 6 0 0 (mounted 800 600)) in
  compensation DEFAULT_SETTINGS 5000 st == 0.
Proof.
  cbv zeta.
  apply (onMouseMove_latest_only DEFAULT_SETTINGS true false
           0 6 0 0 0 9 0 0 5000 (1 # 2) (1 # 2) (mounted 800 600)).
  reflexivity.
Defined.

(** ** Recoil and the target's vertical range *)

(** X4. With a jitter amplitude j >= 0 and a random draw in [0, 1), the
    recoil displacement of a frame lies in
    [(speed - j) / 60, (speed + j) / 60); without jitter it is speed / 60. *)
Theorem recoilStep_bounds (setg : Settings) (rnd : Q) :
  0 <= recoilJitter setg -> 0 <= rnd -> rnd < 1 ->
  (recoilSpeed setg - recoilJitter setg) / 60 <= recoilStep setg rnd /\
  recoilStep setg rnd <= (recoilSpeed setg + recoilJitter setg) / 60 /\
  (recoilJitter setg == 0 -> recoilStep setg rnd == recoilSpeed setg / 60).
Proof.
  intros Hj H0 H1. unfold recoilStep.
  set (s := recoilSpeed setg) in *. set (j := recoilJitter setg) in *.
  assert (Lo : - j <= (rnd * 2 - 1) * j).
  { assert (E : (rnd * 2 - 1) * j - - j == rnd * 2 * j) by ring.
    assert (0 <= rnd * 2 * j).
    { apply Qmult_le_0_compat; [|assumption]. lra. }
    lra. }
  assert (Hi : (rnd * 2 - 1) * j <= j).
  { assert (E : j - (rnd * 2 - 1) * j == (2 - rnd * 2) * j) by ring.
    assert (0 <= (2 - rnd * 2) * j).
    { apply Qmult_le_0_compat; [|assumption]. lra. }
    lra. }
  set (x := (rnd * 2 - 1) * j) in *.
  unfold Qdiv. change (/ 60) with (1 # 60).
  split; [|split].
  - lra.
  - lra.
  - intro Z. subst x. rewrite Z. ring.
Qed.

Lemma recoilStep_bounds_witness :
  (220 - 12) / 60 <= recoilStep DEFAULT_SETTINGS (1 # 4) /\
  recoilStep DEFAULT_SETTINGS (1 # 4) <= (220 + 12) / 60.
Proof.
  destruct (recoilStep_bounds DEFAULT_SETTINGS (1 # 4)) as (Lo & Hi & _);
    try (vm_compute; discriminate); [vm_compute; reflexivity|].
  split; [exact Lo | exact Hi].
Defined.

(** X5. A frame of the running phase never leaves the target above the top
    edge by more than its radius: provided the re-entry line height + radius
    is not itself above -radius, target.y >= -radius after the frame. *)
Theorem target_never_above_top (hypot : Q -> Q -> Q) (setg : Settings)
    (now rnd1 rnd2 : Q) (st : State) :
  started st = true ->
  - targetRadius setg <= size_h st + targetRadius setg ->
  - targetRadius setg
    <= py (target (fst (loop hypot setg true now rnd1 rnd2 st))).
Proof.
  intros Hs Hh. rewrite loop_target. unfold frameTarget, moveTarget.
  rewrite Hs. destruct (wraps setg now rnd1 st) eqn:W; cbn [py].
  - exact Hh.
  - now apply ltb_ge in W.
Qed.

Lemma target_never_above_top_witness :
  let setg := plainSettings 1200 22 in
  let st := fst (run hypot6 setg fastToTheTop (mounted 800 600)) in
  - targetRadius setg
    <= py (target (fst (loop hypot6 setg true 384 (1 # 2) (1 # 2) st))).
Proof.
  cbv zeta.
  apply (target_never_above_top hypot6 (plainSettings 1200 22) 384
           (1 # 2) (1 # 2)
           (fst (run hypot6 (plainSettings 1200 22) fastToTheTop
                   (mounted 800 600)))).
  - vm_compute. reflexivity.
  - vm_compute. discriminate.
Defined.

(** ** Invariants of whole runs *)

(** A property kept by every admitted event is kept by a run of them. *)
Lemma run_preserves (hypot : Q -> Q -> Q) (setg : Settings)
    (P : State -> Prop) (E : Event -> Prop) :
  (forall e st, E e -> P st -> P (fst (step hypot setg e st))) ->
  forall es st, Forall E es -> P st -> P (fst (run hypot setg es st)).
Proof.
  intros Hstep es. induction es as [|e es IH]; intros st HE HP.
  - exact HP.
  - inversion HE as [|? ? He HEs]; subst. cbn [run].
    pose proof (Hstep e st He HP) as H1.
    destruct (step hypot setg e st) as [st1 out1]. cbn [fst] in H1.
    pose proof (IH st1 HEs H1) as H2.
    destruct (run hypot setg es st1) as [st2 out2]. exact H2.
Qed.

(** Likewise for a property of everything the run hands out. *)
Lemma run_outputs (hypot : Q -> Q -> Q) (setg : Settings)
    (P : State -> Prop) (O : Output -> Prop) :
  (forall e st, P st ->
     P (fst (step hypot setg e st)) /\
     Forall O (snd (step hypot setg e st))) ->
  forall es st, P st -> Forall O (snd (run hypot setg es st)).
Proof.
  intros Hstep es. induction es as [|e es IH]; intros st HP.
  - constructor.
  - cbn [run]. destruct (Hstep e st HP) as [H1 HO].
    destruct (step hypot setg e st) as [st1 out1]. cbn [fst snd] in *.
    pose proof (IH st1 H1) as H2.
    destruct (run hypot setg es st1) as [st2 out2]. cbn [snd] in *.
    apply Forall_app. split; assumption.
Qed.

Lemma endSession_fields (setg : Settings) (label : string) (st : State) :
  let st' := fst (endSession setg label st) in
  size_w st' = size_w st /\ target st' = target st /\
  errorHistory st' = errorHistory st /\ pathPoints st' = pathPoints st /\
  leftCount st' = leftCount st /\ lTimestamps st' = lTimestamps st /\
  startedAtMs st' = startedAtMs st /\
  sessionEndAtMs st' = sessionEndAtMs st.
Proof. cbv zeta. repeat split. Qed.

Lemma onTimeout_fields (setg : Settings) (label : string) (st : State) :
  let st' := fst (onTimeout setg label st) in
  size_w st' = size_w st /\ target st' = target st /\
  errorHistory st' = errorHistory st /\ pathPoints st' = pathPoints st /\
  leftCount st' = leftCount st /\ lTimestamps st' = lTimestamps st /\
  startedAtMs st' = startedAtMs st /\
  sessionEndAtMs st' = sessionEndAtMs st.
Proof.
  cbv zeta. unfold onTimeout. destruct (endTimer st); repeat split.
Qed.

Lemma filter_length_le {A : Type} (f : A -> bool) (l : list A) :
  (List.length (filter f l) <= List.length l)%nat.
Proof.
  induction l as [|a l IH]; simpl; [lia|].
  destruct (f a); simpl; lia.
Qed.

(** The held timestamps never outnumber the counted left clicks. *)
Lemma step_timestamps_counted (hypot : Q -> Q -> Q) (setg : Settings)
    (e : Event) (st : State) :
  (List.length (lTimestamps st) <= leftCount st)%nat ->
  (List.length (lTimestamps (fst (step hypot setg e st)))
   <= leftCount (fst (step hypot setg e st)))%nat /\
  Forall (fun o => match o with
                   | ClickUpdate c => (cps c <= counts_left c)%nat
                   | SessionEnd _ => True
                   end) (snd (step hypot setg e st)).
Proof.
  intro H. destruct e; cbn [step fst snd].
  - split; [|constructor].
    unfold onMouseDown; cbn [lTimestamps leftCount].
    destruct (Nat.eqb button 0); [|exact H].
    rewrite length_app. simpl. lia.
  - split; [exact H | constructor].
  - split; [exact H | constructor].
  - split; [exact H | constructor].
  - unfold onToggle. destruct (running st).
    + split; [exact H | repeat constructor].
    + split; [cbn; lia | constructor].
  - unfold onVis. destruct (hidden && running st).
    + split; [exact H | repeat constructor].
    + split; [exact H | constructor].
  - destruct (onTimeout_fields setg label st)
      as (_ & _ & _ & _ & Hc & Ht & _).
    rewrite Hc, Ht. split; [exact H|].
    unfold onTimeout. destruct (endTimer st); repeat constructor.
  - destruct (running st); [|split; [exact H | constructor]].
    unfold loop. destruct surfaces; cbn [negb fst snd lTimestamps leftCount].
    + pose proof (filter_length_le
                    (fun t => Js.leb (now / 1000 - t) 1) (lTimestamps st)).
      split; [lia|]. repeat constructor. cbn [cps counts_left]. lia.
    + split; [exact H | constructor].
Qed.

Lemma clickUpdates_Forall (P : ClickState -> Prop) (out : list Output) :
  Forall (fun o => match o with
                   | ClickUpdate c => P c
                   | SessionEnd _ => True
                   end) out ->
  Forall P (clickUpdates out).
Proof.
  induction 1 as [|o out Ho _ IH]; [constructor|].
  destruct o; cbn [clickUpdates]; [constructor; assumption | exact IH].
Qed.

(** X6. Whatever the host delivers after mounting, every click state handed
    to the click-state callback has a live CPS no greater than its count of
    left clicks: the timestamp sequence only ever holds clicks that were
    counted. *)
Theorem cps_at_most_left_count (hypot : Q -> Q -> Q) (setg : Settings)
    (es : list Event) (w h : Q) :
  Forall (fun c => (cps c <= counts_left c)%nat)
         (clickUpdates (snd (run hypot setg es (mounted w h)))).
Proof.
  apply clickUpdates_Forall.
  apply (run_outputs hypot setg
           (fun st => (List.length (lTimestamps st) <= leftCount st)%nat)).
  - intros e st H. now apply step_timestamps_counted.
  - cbn. lia.
Qed.

Lemma pushCapped_length {A : Type} (cap : nat) (l : list A) (x : A) :
  (List.length l <= cap)%nat ->
  List.length (pushCapped cap l x) = Nat.min cap (S (List.length l)).
Proof.
  intro H. unfold pushCapped.
  assert (L : List.length (l ++ [x]) = S (List.length l))
    by (rewrite length_app; simpl; lia).
  destruct (cap <? List.length (l ++ [x]))%nat eqn:E.
  - apply Nat.ltb_lt in E.
    destruct l as [|a l']; simpl in *; [lia|].
    rewrite length_app. simpl. lia.
  - apply Nat.ltb_ge in E. lia.
Qed.

Lemma step_caps (hypot : Q -> Q -> Q) (setg : Settings) (e : Event)
    (st : State) :
  (List.length (errorHistory st) <= 300)%nat /\
  (List.length (pathPoints st) <= 800)%nat ->
  (List.length (errorHistory (fst (step hypot setg e st))) <= 300)%nat /\
  (List.length (pathPoints (fst (step hypot setg e st))) <= 800)%nat.
Proof.
  intros [He Hp]. destruct e; cbn [step fst]; try (split; assumption).
  - unfold onToggle. destruct (running st); cbn; split; (assumption || lia).
  - unfold onVis. destruct (hidden && running st); split; assumption.
  - destruct (onTimeout_fields setg label st) as (_ & _ & E1 & E2 & _).
    rewrite E1, E2. split; assumption.
  - destruct (running st); [|split; assumption].
    unfold loop. destruct surfaces; cbn [negb fst errorHistory pathPoints];
      [|split; assumption].
    split.
    + rewrite pushCapped_length by assumption. lia.
    + destruct (showPath setg); [|simpl; lia].
      rewrite pushCapped_length by assumption. lia.
Qed.

(** X7. The error history never holds more than 300 samples and the path
    never more than 800 points, whatever the host delivers: an executed frame
    adds one sample, and drops the oldest one once 300 are held. *)
Theorem histories_stay_capped (hypot : Q -> Q -> Q) (setg : Settings)
    (es : list Event) (now rnd1 rnd2 : Q) (st : State) :
  (List.length (errorHistory st) <= 300)%nat ->
  (List.length (pathPoints st) <= 800)%nat ->
  let st' := fst (run hypot setg es st) in
  (List.length (errorHistory st') <= 300)%nat /\
  (List.length (pathPoints st') <= 800)%nat /\
  List.length (errorHistory (fst (loop hypot setg true now rnd1 rnd2 st')))
  = Nat.min 300 (S (List.length (errorHistory st'))).
Proof.
  intros He Hp. cbv zeta.
  assert (H : (List.length (errorHistory (fst (run hypot setg es st)))
               <= 300)%nat /\
              (List.length (pathPoints (fst (run hypot setg es st)))
               <= 800)%nat).
  { apply (run_preserves hypot setg
             (fun s => (List.length (errorHistory s) <= 300)%nat /\
                       (List.length (pathPoints s) <= 800)%nat)
             (fun _ => True)).
    - intros e s _ Hs. now apply step_caps.
    - apply Forall_forall. intros; exact I.
    - split; assumption. }
  destruct H as [H1 H2]. split; [exact H1|]. split; [exact H2|].
  cbn [loop negb fst errorHistory]. now apply pushCapped_length.
Qed.

Lemma histories_stay_capped_witness :
  let st :=
    fst (run hypot6 (plainSettings 220 22)
           (Toggle 0 "start" :: framesFrom 310) (mounted 800 600)) in
  (List.length (errorHistory st) <= 300)%nat /\
  (List.length (pathPoints st) <= 800)%nat.
Proof.
  cbv zeta.
  destruct (histories_stay_capped hypot6 (plainSettings 220 22)
              (Toggle 0 "start" :: framesFrom 310) 0 0 0 (mounted 800 600))
    as (H1 & H2 & _).
  - simpl. lia.
  - simpl. lia.
  - split; assumption.
Defined.

Lemma step_target_inside (hypot : Q -> Q -> Q) (setg : Settings) (w : Q)
    (e : Event) (st : State) :
  targetRadius setg <= w - targetRadius setg ->
  isResize e = false ->
  size_w st = w /\
  targetRadius setg <= px (target st) <= w - targetRadius setg ->
  size_w (fst (step hypot setg e st)) = w /\
  targetRadius setg <= px (target (fst (step hypot setg e st)))
    <= w - targetRadius setg.
Proof.
  intros Hr He [Hw Hx]. destruct e; cbn [step fst]; try (split; assumption).
  - discriminate He.
  - unfold onToggle. destruct (running st); [split; assumption|].
    cbn [fst startSession size_w target px]. split; [exact Hw|].
    rewrite Hw. unfold Qdiv. change (/ 2) with (1 # 2). split; lra.
  - unfold onVis. destruct (hidden && running st); split; assumption.
  - destruct (onTimeout_fields setg label st) as (E1 & E2 & _).
    rewrite E1, E2. split; assumption.
  - destruct (running st); [|split; assumption].
    unfold loop.
    destruct surfaces; cbn [negb fst size_w target]; [|split; assumption].
    split; [exact Hw|].
    unfold frameTarget, moveTarget.
    destruct (started st); [|exact Hx].
    destruct (wraps setg now rnd1 st); cbn [px]; [|exact Hx].
    rewrite Hw. now apply clamp_within.
Qed.

(** X8. When the playfield is at least two radii wide and is not resized,
    a target that is horizontally inside [radius, width - radius] stays
    there through every event, including restarts (which centre it) and
    wraps (which clamp it). *)
Theorem target_stays_inside (hypot : Q -> Q -> Q) (setg : Settings)
    (es : list Event) (st : State) :
  Forall (fun e => isResize e = false) es ->
  targetRadius setg <= size_w st - targetRadius setg ->
  targetRadius setg <= px (target st) <= size_w st - targetRadius setg ->
  targetRadius setg <= px (target (fst (run hypot setg es st)))
    <= size_w st - targetRadius setg.
Proof.
  intros HE Hr Hx.
  apply (run_preserves hypot setg
           (fun s => size_w s = size_w st /\
                     targetRadius setg <= px (target s)
                       <= size_w st - targetRadius setg)
           (fun e => isResize e = false)).
  - intros e s He Hs. now apply step_target_inside.
  - exact HE.
  - split; [reflexivity | exact Hx].
Qed.

Lemma target_stays_inside_witness :
  let setg := plainSettings 1200 22 in
  let st := startSession setg 0 (mounted 800 600) in
  targetRadius setg <= px (target (fst (run hypot6 setg (framesFrom 30) st)))
    <= size_w st - targetRadius setg.
Proof.
  cbv zeta.
  apply (target_stays_inside hypot6 (plainSettings 1200 22) (framesFrom 30)
           (startSession (plainSettings 1200 22) 0 (mounted 800 600))).
  - unfold framesFrom. apply Forall_forall. intros e He.
    apply in_map_iff in He. destruct He as (k & <- & _). reflexivity.
  - vm_compute. discriminate.
  - split; vm_compute; discriminate.
Defined.

(** ** The session clock *)

Lemma step_latch_kept (hypot : Q -> Q -> Q) (setg : Settings) (a b : Q)
    (e : Event) (st : State) :
  ~ a == 0 -> isToggle e = false ->
  startedAtMs st = a /\ sessionEndAtMs st = b ->
  startedAtMs (fst (step hypot setg e st)) = a /\
  sessionEndAtMs (fst (step hypot setg e st)) = b.
Proof.
  intros Ha He [Hs Hb]. destruct e; cbn [step fst]; try (split; assumption).
  - discriminate He.
  - unfold onVis. destruct (hidden && running st); split; assumption.
  - destruct (onTimeout_fields setg label st)
      as (_ & _ & _ & _ & _ & _ & E1 & E2).
    rewrite E1, E2. split; assumption.
  - destruct (running st); [|split; assumption].
    unfold loop.
    destruct surfaces; cbn [negb fst startedAtMs sessionEndAtMs];
      [|split; assumption].
    unfold latchedEnd, latchedStart.
    assert (T : Js.truthy (startedAtMs st) = true)
      by (apply truthy_neq; now rewrite Hs).
    rewrite T, andb_false_r. split; assumption.
Qed.

(** X9. The session start is latched once: the first frame of the running
    phase that finds no start time takes its own time as the start and sets
    the end one configured duration later; from then on no frame, pointer
    event, resize, visibility change or timer moves either time. *)
Theorem session_clock_latched_once (hypot : Q -> Q -> Q) (setg : Settings)
    (now rnd1 rnd2 : Q) (es : list Event) (st : State) :
  started st = true -> startedAtMs st == 0 -> ~ now == 0 ->
  Forall (fun e => isToggle e = false) es ->
  let st1 := fst (loop hypot setg true now rnd1 rnd2 st) in
  let st2 := fst (run hypot setg es st1) in
  startedAtMs st1 = now /\
  sessionEndAtMs st1 = now + durationSec setg * 1000 /\
  startedAtMs st2 = now /\
  sessionEndAtMs st2 = now + durationSec setg * 1000.
Proof.
  intros Hs Hz Hn HE. cbv zeta.
  assert (H1 : startedAtMs (fst (loop hypot setg true now rnd1 rnd2 st)) = now
               /\ sessionEndAtMs (fst (loop hypot setg true now rnd1 rnd2 st))
                  = now + durationSec setg * 1000).
  { cbn [loop negb fst startedAtMs sessionEndAtMs].
    unfold latchedEnd, latchedStart.
    assert (T : Js.truthy (startedAtMs st) = false) by now apply truthy_eq.
    rewrite Hs, T. split; reflexivity. }
  destruct H1 as [A B]. split; [exact A|]. split; [exact B|].
  apply (run_preserves hypot setg
           (fun s => startedAtMs s = now /\
                     sessionEndAtMs s = now + durationSec setg * 1000)
           (fun e => isToggle e = false)).
  - intros e s He Hp. now apply step_latch_kept.
  - exact HE.
  - split; assumption.
Qed.

Lemma session_clock_latched_once_witness :
  let setg := plainSettings 220 22 in
  let st := startSession setg 0 (mounted 800 600) in
  let st1 := fst (loop hypot6 setg true 16 (1 # 2) (1 # 2) st) in
  let st2 :=
    fst (run hypot6 setg
           [Frame true 33 (1 # 2) (1 # 2); MouseDown 0 40;
            Frame true 50 (1 # 2) (1 # 2)] st1) in
  startedAtMs st2 = 16 /\ sessionEndAtMs st2 = 16 + 5 * 1000.
Proof.
  cbv zeta.
  destruct (session_clock_latched_once hypot6 (plainSettings 220 22) 16
              (1 # 2) (1 # 2)
              [Frame true 33 (1 # 2) (1 # 2); MouseDown 0 40;
               Frame true 50 (1 # 2) (1 # 2)]
              (startSession (plainSettings 220 22) 0 (mounted 800 600)))
    as (_ & _ & A & B).
  - vm_compute. reflexivity.
  - vm_compute. reflexivity.
  - intro H. vm_compute in H. discriminate H.
  - repeat constructor.
  - split; assumption.
Defined.

Lemma timeUp_zero (e n : Q) :
  e <= n ->
  Js.max 0 (e - n) == 0 /\ Js.ceil (Js.max 0 (e - n) / 1000) == 0.
Proof.
  intro H.
  assert (Z : Js.max 0 (e - n) == 0).
  { unfold Js.max. destruct (Q.max_spec 0 (e - n)) as [[A B] | [A B]]; lra. }
  split; [exact Z|].
  unfold Js.ceil.
  assert (E : Js.max 0 (e - n) / 1000 == 0) by (rewrite Z; reflexivity).
  rewrite (Qceiling_comp _ _ E). reflexivity.
Qed.

(** What a frame that arms the end timer tells. *)
Lemma loop_arms (hypot : Q -> Q -> Q) (setg : Settings)
    (now rnd1 rnd2 : Q) (st : State) :
  let st1 := fst (loop hypot setg true now rnd1 rnd2 st) in
  endTimer st1 <> endTimer st ->
  started st = true /\ sessionEndAtMs st1 <= now /\
  endTimer st1 = S (endTimer st) /\ lastSecondShown st1 == 0.
Proof.
  cbv zeta. cbn [loop negb fst endTimer sessionEndAtMs lastSecondShown].
  set (e1 := latchedEnd setg now st).
  set (ms := Js.max 0 (e1 - now)).
  destruct (started st && Js.neqb (Js.ceil (ms / 1000)) (lastSecondShown st))
    eqn:Tick; cbn [andb]; [|intro H; now contradiction H].
  destruct (Js.leb ms 0) eqn:Up; [|intro H; now contradiction H].
  intros _.
  apply andb_true_iff in Tick. destruct Tick as [Hs _].
  apply leb_le in Up.
  assert (He1 : e1 <= now).
  { unfold ms, Js.max in Up. pose proof (Q.le_max_r 0 (e1 - now)). lra. }
  destruct (timeUp_zero e1 now He1) as [_ Hc]. fold ms in Hc.
  split; [exact Hs|]. split; [exact He1|]. split; [reflexivity | exact Hc].
Qed.

(** Once second 0 is shown and the session end is behind, a frame changes
    nothing about the clock or the timer. *)
Lemma loop_time_up (hypot : Q -> Q -> Q) (setg : Settings)
    (surfaces : bool) (n rnd1 rnd2 : Q) (st : State) :
  lastSecondShown st == 0 -> ~ startedAtMs st == 0 ->
  sessionEndAtMs st <= n ->
  let st' := fst (loop hypot setg surfaces n rnd1 rnd2 st) in
  endTimer st' = endTimer st /\ lastSecondShown st' = lastSecondShown st /\
  startedAtMs st' = startedAtMs st /\ sessionEndAtMs st' = sessionEndAtMs st.
Proof.
  intros Hl Hs He. cbv zeta. unfold loop.
  destruct surfaces;
    cbn [negb fst endTimer lastSecondShown startedAtMs sessionEndAtMs];
    [|repeat split].
  assert (T : Js.truthy (startedAtMs st) = true) by now apply truthy_neq.
  assert (L1 : latchedStart n st = startedAtMs st).
  { unfold latchedStart. rewrite T, andb_false_r. reflexivity. }
  assert (L2 : latchedEnd setg n st = sessionEndAtMs st).
  { unfold latchedEnd. rewrite T, andb_false_r. reflexivity. }
  rewrite L1, L2.
  destruct (timeUp_zero (sessionEndAtMs st) n He) as [_ Hc].
  assert (N : Js.neqb (Js.ceil (Js.max 0 (sessionEndAtMs st - n) / 1000))
                      (lastSecondShown st) = false).
  { unfold Js.neqb. apply negb_false_iff. apply Qeq_bool_iff.
    rewrite Hc, Hl. reflexivity. }
  rewrite N, andb_false_r. cbn [andb]. repeat split.
Qed.

Lemma step_time_up (hypot : Q -> Q -> Q) (setg : Settings) (now : Q)
    (k : nat) (e : Event) (st : State) :
  match e with
  | Frame _ n _ _ => now <= n
  | Toggle _ _ | Timeout _ => False
  | _ => True
  end ->
  endTimer st = k /\ lastSecondShown st == 0 /\
  ~ startedAtMs st == 0 /\ sessionEndAtMs st <= now ->
  let st' := fst (step hypot setg e st) in
  endTimer st' = k /\ lastSecondShown st' == 0 /\
  ~ startedAtMs st' == 0 /\ sessionEndAtMs st' <= now.
Proof.
  intros He (Hk & Hl & Hs & Hend). cbv zeta.
  destruct e; cbn [step fst]; try contradiction;
    try (repeat split; assumption).
  - unfold onVis. destruct (hidden && running st); repeat split; assumption.
  - destruct (running st); [|repeat split; assumption].
    assert (Hn : sessionEndAtMs st <= now0) by lra.
    destruct (loop_time_up hypot setg surfaces now0 rnd1 rnd2 st Hl Hs Hn)
      as (A & B & C & D).
    rewrite A, B, C, D. repeat split; assumption.
Qed.

(** X10. The frame arms the end timer only when the session time is up (it
    is a frame of the running phase at or past the session end), and the
    frame that arms it records second 0 as shown; through the later frames
    and events of that session, up to the next toggle or the timer coming
    due, second 0 stays shown and the timer is never armed again. *)
Theorem end_timer_armed_once (hypot : Q -> Q -> Q) (setg : Settings)
    (now rnd1 rnd2 : Q) (es : list Event) (st : State) :
  let st1 := fst (loop hypot setg true now rnd1 rnd2 st) in
  endTimer st1 <> endTimer st ->
  ~ now == 0 ->
  Forall (fun e => match e with
                   | Frame _ n _ _ => now <= n
                   | Toggle _ _ | Timeout _ => False
                   | _ => True
                   end) es ->
  started st = true /\ sessionEndAtMs st1 <= now /\
  endTimer st1 = S (endTimer st) /\
  lastSecondShown st1 == 0 /\
  endTimer (fst (run hypot setg es st1)) = S (endTimer st) /\
  lastSecondShown (fst (run hypot setg es st1)) == 0.
Proof.
  cbv zeta. intros Harm Hn HE.
  destruct (loop_arms hypot setg now rnd1 rnd2 st Harm)
    as (Hs & Hend & Hk & Hl).
  split; [exact Hs|]. split; [exact Hend|]. split; [exact Hk|].
  split; [exact Hl|].
  assert (Hst : ~ startedAtMs (fst (loop hypot setg true now rnd1 rnd2 st))
                  == 0).
  { cbn [loop negb fst startedAtMs]. unfold latchedStart. rewrite Hs.
    destruct (Js.truthy (startedAtMs st)) eqn:T; cbn [andb negb].
    - now apply truthy_neq.
    - exact Hn. }
  cut (endTimer (fst (run hypot setg es
                        (fst (loop hypot setg true now rnd1 rnd2 st))))
       = S (endTimer st) /\
       lastSecondShown (fst (run hypot setg es
                               (fst (loop hypot setg true now rnd1 rnd2 st))))
       == 0 /\
       ~ startedAtMs (fst (run hypot setg es
                             (fst (loop hypot setg true now rnd1 rnd2 st))))
         == 0 /\
       sessionEndAtMs (fst (run hypot setg es
                              (fst (loop hypot setg true now rnd1 rnd2 st))))
       <= now).
  { intros (A & B & _). split; assumption. }
  apply (run_preserves hypot setg
           (fun s => endTimer s = S (endTimer st) /\ lastSecondShown s == 0 /\
                     ~ startedAtMs s == 0 /\ sessionEndAtMs s <= now)
           (fun e => match e with
                     | Frame _ n _ _ => now <= n
                     | Toggle _ _ | Timeout _ => False
                     | _ => True
                     end)).
  - intros e s He Hp. now apply (step_time_up hypot setg now).
  - exact HE.
  - repeat split; assumption.
Qed.

(** The five-second session played out: the frame at 5016 ms arms the timer,
    the frames after it do not. *)
Lemma end_timer_armed_once_witness :
  let setg := plainSettings 220 22 in
  let st :=
    fst (run hypot6 setg [Toggle 0 "start"; Frame true 16 (1 # 2) (1 # 2)]
           (mounted 800 600)) in
  let st1 := fst (loop hypot6 setg true 5016 (1 # 2) (1 # 2) st) in
  endTimer st1 = 1%nat /\
  endTimer (fst (run hypot6 setg
                   [Frame true 5033 (1 # 2) (1 # 2); MouseDown 0 5040;
                    Frame true 5050 (1 # 2) (1 # 2)] st1)) = 1%nat.
Proof.
  cbv zeta.
  destruct (end_timer_armed_once hypot6 (plainSettings 220 22) 5016
              (1 # 2) (1 # 2)
              [Frame true 5033 (1 # 2) (1 # 2); MouseDown 0 5040;
               Frame true 5050 (1 # 2) (1 # 2)]
              (fst (run hypot6 (plainSettings 220 22)
                      [Toggle 0 "start"; Frame true 16 (1 # 2) (1 # 2)]
                      (mounted 800 600))))
    as (_ & _ & A & _ & B & _).
  - vm_compute. discriminate.
  - intro H. vm_compute in H. discriminate H.
  - repeat constructor; vm_compute; discriminate.
  - split; [exact A | exact B].
Defined.

(** ** Counting clicks *)

Lemma step_leftCount (hypot : Q -> Q -> Q) (setg : Settings) (e : Event)
    (st : State) :
  isToggle e = false ->
  leftCount (fst (step hypot setg e st))
  = (leftCount st + leftDowns [e])%nat.
Proof.
  intro He. destruct e; cbn [step fst]; try (cbn; lia).
  - destruct button as [|b]; cbn; lia.
  - discriminate He.
  - unfold onVis. destruct (hidden && running st); cbn; lia.
  - destruct (onTimeout_fields setg label st) as (_ & _ & _ & _ & E & _).
    rewrite E. cbn. lia.
  - destruct (running st); [|cbn; lia].
    unfold loop. destruct surfaces; cbn; lia.
Qed.

(** X11. Between two starts every press of the left button is counted as a
    shot, in whatever phase it falls (countdown, running, or after the
    session has ended), and nothing else changes the count: after a run
    without a toggle the left-click counter, and with it the shots of a
    summary taken then, is the old count plus the number of left presses. *)
Theorem shots_count_left_presses (hypot : Q -> Q -> Q) (setg : Settings)
    (label : string) (es : list Event) (st : State) :
  Forall (fun e => isToggle e = false) es ->
  let st' := fst (run hypot setg es st) in
  leftCount st' = (leftCount st + leftDowns es)%nat /\
  exists s : Summary,
    snd (endSession setg label st') = [SessionEnd s] /\
    shots s = (leftCount st + leftDowns es)%nat.
Proof.
  intro HE. cbv zeta.
  assert (H : leftCount (fst (run hypot setg es st))
              = (leftCount st + leftDowns es)%nat).
  { revert st. induction es as [|e es IH]; intro st.
    - cbn. lia.
    - inversion HE as [|? ? He HEs]; subst. cbn [run].
      pose proof (step_leftCount hypot setg e st He) as H1.
      destruct (step hypot setg e st) as [st1 out1]. cbn [fst] in H1.
      pose proof (IH HEs st1) as H2.
      destruct (run hypot setg es st1) as [st2 out2]. cbn [fst] in *.
      rewrite H2, H1. unfold leftDowns. cbn [filter].
      destruct e as [[|b] ? | | | | | | |]; cbn; lia. }
  split; [exact H|]. eexists. split; [reflexivity|]. exact H.
Qed.

(** A press in the countdown, one in the running phase and one after the
    timer has ended the session: three shots. *)
Lemma shots_count_left_presses_witness :
  let st := startSession DEFAULT_SETTINGS 0 (mounted 800 600) in
  leftCount
    (fst (run hypot6 DEFAULT_SETTINGS
            [MouseDown 0 500; Frame true 3000 (1 # 2) (1 # 2);
             Frame true 3016 (1 # 2) (1 # 2); MouseDown 0 3020;
             Visibility true "hidden"; MouseDown 0 4000] st)) = 3%nat.
Proof.
  cbv zeta.
  apply (shots_count_left_presses hypot6 DEFAULT_SETTINGS "x"
           [MouseDown 0 500; Frame true 3000 (1 # 2) (1 # 2);
            Frame true 3016 (1 # 2) (1 # 2); MouseDown 0 3020;
            Visibility true "hidden"; MouseDown 0 4000]
           (startSession DEFAULT_SETTINGS 0 (mounted 800 600))).
  repeat constructor.
Defined.

(** ** The countdown *)

(** X12. The countdown a frame computes is never negative and never grows
    as time passes; for a whole number k of configured seconds it is at
    least 1 until k seconds have elapsed since the start and 0 from then
    on. *)
Theorem countdown_runs_down (setg : Settings) (now now' : Q) (k : Z)
    (st : State) :
  0 <= cdLeftAt setg now st /\
  (now <= now' -> cdLeftAt setg now' st <= cdLeftAt setg now st) /\
  (countdownSec setg == inject_Z k ->
   (inject_Z k * 1000 <= now - countdownStartMs st ->
    cdLeftAt setg now st == 0) /\
   (now - countdownStartMs st < inject_Z k * 1000 ->
    1 <= cdLeftAt setg now st)).
Proof.
  unfold cdLeftAt, Js.max, Js.floor.
  set (c := countdownSec setg). set (s := countdownStartMs st).
  split; [apply Q.le_max_l|]. split.
  - intro Hle.
    assert (F : (Qfloor ((now - s) / 1000) <= Qfloor ((now' - s) / 1000))%Z).
    { apply Qfloor_resp_le. unfold Qdiv. change (/ 1000) with (1 # 1000).
      lra. }
    rewrite Zle_Qle in F.
    apply Q.max_le_compat_l. lra.
  - intro Hk. split.
    + intro He.
      assert (F : (k <= Qfloor ((now - s) / 1000))%Z).
      { rewrite <- (Qfloor_Z k). apply Qfloor_resp_le.
        unfold Qdiv. change (/ 1000) with (1 # 1000). lra. }
      rewrite Zle_Qle in F.
      destruct (Q.max_spec 0 (c - inject_Z (Qfloor ((now - s) / 1000))))
        as [[A B] | [A B]]; lra.
    + intro He.
      assert (F : (Qfloor ((now - s) / 1000) < k)%Z).
      { rewrite Zlt_Qlt.
        pose proof (Qfloor_le ((now - s) / 1000)) as Fl.
        assert ((now - s) / 1000 < inject_Z k).
        { unfold Qdiv. change (/ 1000) with (1 # 1000). lra. }
        lra. }
      assert (F' : (Qfloor ((now - s) / 1000) + 1 <= k)%Z) by lia.
      rewrite Zle_Qle in F'. rewrite inject_Z_plus in F'.
      change (inject_Z 1) with 1 in F'.
      pose proof (Q.le_max_r 0 (c - inject_Z (Qfloor ((now - s) / 1000)))).
      lra.
Qed.

(** The default three seconds: 1 left at 2999 ms, 0 at 3000 ms. *)
Lemma countdown_runs_down_witness :
  let st := startSession DEFAULT_SETTINGS 0 (mounted 800 600) in
  1 <= cdLeftAt DEFAULT_SETTINGS 2999 st /\
  cdLeftAt DEFAULT_SETTINGS 3000 st == 0 /\
  cdLeftAt DEFAULT_SETTINGS 3000 st <= cdLeftAt DEFAULT_SETTINGS 2999 st.
Proof.
  cbv zeta.
  destruct (countdown_runs_down DEFAULT_SETTINGS 2999 3000 3
              (startSession DEFAULT_SETTINGS 0 (mounted 800 600)))
    as (_ & Mono & Exact).
  destruct (countdown_runs_down DEFAULT_SETTINGS 3000 3000 3
              (startSession DEFAULT_SETTINGS 0 (mounted 800 600)))
    as (_ & _ & Exact').
  destruct Exact as [_ Before]; [reflexivity|].
  destruct Exact' as [After _]; [reflexivity|].
  split; [apply Before; vm_compute; reflexivity|].
  split; [apply After; vm_compute; discriminate|].
  apply Mono. vm_compute. discriminate.
Defined.

(** ** Ranges of the summary *)

Lemma pow10_pos (d : nat) : 0 < Js.pow10 d.
Proof.
  unfold Js.pow10. change 0 with (inject_Z 0). rewrite <- Zlt_Qlt.
  apply Z.pow_pos_nonneg; lia.
Qed.

(** Rounding to decimals keeps a value between 0 and a whole bound. *)
Lemma toFixed_bounds (d : nat) (x : Q) (m : Z) :
  0 <= x -> x <= inject_Z m ->
  0 <= Js.toFixed d x /\ Js.toFixed d x <= inject_Z m.
Proof.
  intros H0 Hm. unfold Js.toFixed.
  assert (L : Js.ltb x 0 = false) by now apply ltb_ge.
  rewrite L. rewrite (Qabs_pos x H0).
  pose proof (pow10_pos d) as Hp.
  set (p := Js.pow10 d) in *.
  set (n := Qfloor (x * p + (1 # 2))).
  assert (Hxp : 0 <= x * p) by (apply Qmult_le_0_compat; lra).
  assert (N0 : (0 <= n)%Z).
  { unfold n. rewrite <- (Qfloor_Z 0). apply Qfloor_resp_le.
    change (inject_Z 0) with 0. lra. }
  assert (N1 : (n <= m * 10 ^ Z.of_nat d)%Z).
  { assert (Lt : (n < m * 10 ^ Z.of_nat d + 1)%Z).
    { rewrite Zlt_Qlt. pose proof (Qfloor_le (x * p + (1 # 2))) as Fl.
      fold n in Fl. rewrite inject_Z_plus, inject_Z_mult.
      change (inject_Z (10 ^ Z.of_nat d)) with p.
      change (inject_Z 1) with 1.
      assert (x * p <= inject_Z m * p)
        by (apply Qmult_le_compat_r; lra).
      lra. }
    lia. }
  rewrite Zle_Qle in N0, N1. rewrite inject_Z_mult in N1.
  change (inject_Z (10 ^ Z.of_nat d)) with p in N1.
  change (inject_Z 0) with 0 in N0.
  split.
  - apply Qle_shift_div_l; [exact Hp | lra].
  - apply Qle_shift_div_r; [exact Hp | exact N1].
Qed.

Lemma round_nonneg (x : Q) : 0 <= x -> 0 <= Js.round x.
Proof.
  intro H. unfold Js.round. change 0 with (inject_Z 0) at 1.
  rewrite <- Zle_Qle. rewrite <- (Qfloor_Z 0). apply Qfloor_resp_le.
  change (inject_Z 0) with 0. lra.
Qed.

Lemma round_whole (n : nat) : Js.round (Js.num n) == Js.num n.
Proof.
  unfold Js.round, Js.num.
  assert (E : Qfloor (inject_Z (Z.of_nat n) + (1 # 2)) = Z.of_nat n).
  { apply Z.le_antisymm.
    - assert (Lt : (Qfloor (inject_Z (Z.of_nat n) + (1 # 2))
                    < Z.of_nat n + 1)%Z).
      { rewrite Zlt_Qlt.
        pose proof (Qfloor_le (inject_Z (Z.of_nat n) + (1 # 2))) as Fl.
        rewrite inject_Z_plus. change (inject_Z 1) with 1. lra. }
      lia.
    - rewrite <- (Qfloor_Z (Z.of_nat n)) at 1. apply Qfloor_resp_le. lra. }
  rewrite E. reflexivity.
Qed.

(** The estimated hit-rate is a fraction. *)
Lemma hitRateOf_unit (radius : Q) (errors : list Q) (n : nat) :
  exists r : Q, hitRateOf radius errors n = Some r /\ 0 <= r /\ r <= 1.
Proof.
  rewrite hitRateOf_some. eexists. split; [reflexivity|].
  destruct (Js.truthy (Js.num n)) eqn:T; [|split; lra].
  assert (Hn : 0 < Js.num n).
  { apply truthy_neq in T. pose proof (num_nonneg n). lra. }
  destruct (Js.gtb (Js.num n) 0 && Js.gtb (Js.len errors) 0) eqn:G.
  - apply andb_true_iff in G. destruct G as [_ G]. apply gtb_gt in G.
    set (h := Js.num (hitFrames radius errors)).
    assert (Hh0 : 0 <= h) by apply num_nonneg.
    assert (Hh1 : h <= Js.len errors).
    { unfold h. rewrite len_num. apply num_le. apply filter_length_le. }
    assert (Hx : h * (Js.num n / Js.len errors) <= Js.num n).
    { assert (E : h * (Js.num n / Js.len errors)
                  == Js.num n * (h / Js.len errors)) by (field; lra).
      rewrite E.
      assert (h / Js.len errors <= 1)
        by (apply Qle_shift_div_r; lra).
      assert (Js.num n * (h / Js.len errors) <= Js.num n * 1).
      { apply Qmult_le_l; assumption. }
      lra. }
    assert (Hx0 : 0 <= h * (Js.num n / Js.len errors)).
    { apply Qmult_le_0_compat; [exact Hh0|].
      apply Qle_shift_div_l; lra. }
    pose proof (round_nonneg _ Hx0) as R0.
    pose proof (round_le _ _ Hx) as R1. rewrite round_whole in R1.
    split.
    + apply Qle_shift_div_l; lra.
    + apply Qle_shift_div_r; lra.
  - split.
    + apply Qle_shift_div_l; lra.
    + apply Qle_shift_div_r; lra.
Qed.

(** X13. Whatever was recorded, the hit-rate of a summary is a finite
    percentage between 0 and 100. *)
Theorem hitRate_is_a_percentage (setg : Settings) (label : string)
    (st : State) :
  exists (s : Summary) (p : Q),
    snd (endSession setg label st) = [SessionEnd s] /\
    hitRate s = Some p /\ 0 <= p /\ p <= 100.
Proof.
  destruct (hitRateOf_unit (targetRadius setg) (errorHistory st)
              (leftCount st)) as (r & Hr & R0 & R1).
  unfold endSession; cbn [snd]. rewrite Hr. cbn [option_map].
  eexists _, _. split; [reflexivity|]. split; [reflexivity|].
  apply (toFixed_bounds 1 (r * 100) 100).
  - lra.
  - change (inject_Z 100) with 100. lra.
Qed.

Lemma hd_In_nonempty (l : list Q) : l <> [] -> In (hd 0 l) l.
Proof. destruct l; [contradiction | intros _; now left]. Qed.

Lemma last_In_nonempty (l : list Q) : l <> [] -> In (last l 0) l.
Proof.
  induction l as [|a l IH]; [contradiction|]. intros _.
  destruct l as [|b l']; [now left|].
  right. apply IH. discriminate.
Qed.

(** X14. The average CPS is taken over what the frames have left of the
    timestamps, the trailing second.  So right after a frame that no click
    postdates, the average is 0 (fewer than two timestamps held, or all at
    the same instant) or at least the number of held timestamps, which is at
    least 2: it is never a rate between 0 and 2. *)
Theorem avgCps_zero_or_at_least_two (hypot : Q -> Q -> Q) (setg : Settings)
    (now rnd1 rnd2 : Q) (st : State) :
  Forall (fun t => t <= now / 1000) (lTimestamps st) ->
  let ts := lTimestamps (fst (loop hypot setg true now rnd1 rnd2 st)) in
  exists c : Q,
    avgCpsOf ts = Some c /\
    (c == 0 \/ (2 <= Js.len ts /\ Js.len ts <= c)).
Proof.
  intro Hle. cbv zeta. rewrite loop_prunes_timestamps.
  set (T := now / 1000) in *.
  set (ts := filter (fun t => Js.leb (T - t) 1) (lTimestamps st)).
  assert (Win : forall t, In t ts -> T - 1 <= t /\ t <= T).
  { intros t Ht. apply filter_In in Ht. destruct Ht as [Hin Hf].
    apply leb_le in Hf. rewrite Forall_forall in Hle.
    pose proof (Hle t Hin). split; lra. }
  rewrite avgCpsOf_some. eexists. split; [reflexivity|].
  destruct (2 <=? List.length ts)%nat eqn:L2; [|left; reflexivity].
  destruct (Js.gtb (last ts 0 - hd 0 ts) 0) eqn:G; [|left; reflexivity].
  right. apply Nat.leb_le in L2. apply gtb_gt in G.
  assert (Hne : ts <> []) by (destruct ts; [simpl in L2; lia | discriminate]).
  destruct (Win _ (hd_In_nonempty ts Hne)) as [H1 _].
  destruct (Win _ (last_In_nonempty ts Hne)) as [_ H2].
  assert (Hn : 2 <= Js.len ts).
  { rewrite len_num. change 2 with (Js.num 2). now apply num_le. }
  split; [exact Hn|].
  apply Qle_shift_div_l; [exact G|].
  assert (Js.len ts * (last ts 0 - hd 0 ts) <= Js.len ts * 1).
  { apply Qmult_le_l; lra. }
  lra.
Qed.

(** Two clicks half a second apart and a frame after them: 2 / 0.5 s. *)
Lemma avgCps_zero_or_at_least_two_witness :
  let st :=
    fst (run hypot6 DEFAULT_SETTINGS
           [Toggle 0 "start"; MouseDown 0 500; MouseDown 0 1000]
           (mounted 800 600)) in
  exists c : Q,
    avgCpsOf
      (lTimestamps (fst (loop hypot6 DEFAULT_SETTINGS true 1200
                           (1 # 2) (1 # 2) st))) = Some c /\
    (c == 0 \/ 2 <= c).
Proof.
  cbv zeta.
  destruct (avgCps_zero_or_at_least_two hypot6 DEFAULT_SETTINGS 1200
              (1 # 2) (1 # 2)
              (fst (run hypot6 DEFAULT_SETTINGS
                      [Toggle 0 "start"; MouseDown 0 500; MouseDown 0 1000]
                      (mounted 800 600))))
    as (c & Hc & Hz).
  - repeat constructor; vm_compute; discriminate.
  - exists c. split; [exact Hc|].
    destruct Hz as [Z | [A B]]; [left; exact Z | right; lra].
Defined.

(** ** From countdown to running *)




(** ** The score log and the settings form *)

Lemma firstn_cons_firstn {A : Type} (n : nat) (x : A) (l : list A) :
  firstn n (x :: firstn n l) = firstn n (x :: l).
Proof.
  destruct n as [|k]; [reflexivity|].
  rewrite !firstn_cons, firstn_firstn.
  replace (Nat.min k (S k)) with k by lia. reflexivity.
Qed.

Lemma scoreLog_fold (ss log : list Summary) :
  fold_left (fun l s => DrillApp.onSessionEnd s l) ss (firstn 50 log)
  = firstn 50 (rev ss ++ log).
Proof.
  revert log. induction ss as [|s ss IH]; intro log; [reflexivity|].
  cbn [fold_left]. unfold DrillApp.onSessionEnd at 2.
  rewrite firstn_cons_firstn, IH. cbn [rev]. rewrite <- app_assoc.
  reflexivity.
Qed.

(** X16. The score log keeps the 50 most recent summaries, newest first:
    after the session-end callback has received the summaries of a run, the
    log is the first 50 of those summaries in reverse order followed by the
    earlier log, and it never holds more than 50. *)
Theorem scoreLog_newest_fifty (out : list Output) (log : list Summary) :
  (List.length log <= 50)%nat ->
  DrillApp.scoreLogAfter out log = firstn 50 (rev (summaries out) ++ log) /\
  (List.length (DrillApp.scoreLogAfter out log) <= 50)%nat.
Proof.
  intro H. unfold DrillApp.scoreLogAfter.
  assert (E : firstn 50 log = log) by (apply firstn_all2; exact H).
  pose proof (scoreLog_fold (summaries out) log) as F.
  rewrite E in F. rewrite F.
  split; [reflexivity|]. rewrite length_firstn. lia.
Qed.

(** The two summaries of the stop-and-timer session, latest on top. *)
Lemma scoreLog_newest_fifty_witness :
  map endedAt
    (DrillApp.scoreLogAfter
       (snd (run hypot6 (plainSettings 220 22)
               (playedOut ++ [Toggle 5017 "stop"; Timeout "timer"])
               (mounted 800 600))) [])
  = ["timer"; "stop"]%string.
Proof.
  destruct (scoreLog_newest_fifty
              (snd (run hypot6 (plainSettings 220 22)
                      (playedOut ++ [Toggle 5017 "stop"; Timeout "timer"])
                      (mounted 800 600))) []) as [E _].
  - simpl. lia.
  - rewrite E. vm_compute. reflexivity.
Defined.

(** X17. Whatever is typed into the duration field (a number, zero, or text
    that is no number), the duration handed to the settings is at least 5
    seconds: a number of 5 or more is kept, anything else becomes 5; each of
    the eleven other settings is left as it was. *)
Theorem duration_at_least_five (v : option Q) (prev : Settings) :
  let next := ControlPanel.onDurationChange v prev in
  5 <= durationSec next /\
  (forall q : Q, v = Some q -> 5 <= q -> durationSec next == q) /\
  (v = None \/ v = Some 0 -> durationSec next == 5) /\
  countdownSec next = countdownSec prev /\
  startGraceMs next = startGraceMs prev /\
  deadZoneY next = deadZoneY prev /\
  recoilSpeed next = recoilSpeed prev /\
  recoilJitter next = recoilJitter prev /\
  compensationGain next = compensationGain prev /\
  targetRadius next = targetRadius prev /\
  showPath next = showPath prev /\
  showHeatmap next = showHeatmap prev /\
  crosshairSize next = crosshairSize prev /\
  cursorMode next = cursorMode prev.
Proof.
  cbv zeta.
  unfold ControlPanel.onDurationChange, ControlPanel.updateDurationSec,
    ControlPanel.durationValue;
    cbn [durationSec countdownSec startGraceMs deadZoneY recoilSpeed
         recoilJitter compensationGain targetRadius showPath showHeatmap
         crosshairSize cursorMode].
  unfold Js.max.
  split; [apply Q.le_max_l|].
  split; [|split; [|repeat split]].
  - intros q -> Hq. unfold ControlPanel.numberOr.
    assert (T : Js.truthy q = true) by (apply truthy_neq; lra).
    rewrite T. apply Q.max_r. exact Hq.
  - intros [-> | ->]; reflexivity.
Qed.

Lemma duration_at_least_five_witness :
  durationSec (ControlPanel.onDurationChange (Some 60) DEFAULT_SETTINGS)
    == 60 /\
  durationSec (ControlPanel.onDurationChange None DEFAULT_SETTINGS) == 5.
Proof.
  destruct (duration_at_least_five (Some 60) DEFAULT_SETTINGS)
    as (_ & Keep & _).
  destruct (duration_at_least_five None DEFAULT_SETTINGS)
    as (_ & _ & Nan & _).
  split.
  - apply (Keep 60); [reflexivity | vm_compute; discriminate].
  - apply Nan. left. reflexivity.
Defined.

(** * Properties of the click trainer *)

Lemma countsMiss_iff (c : Trainer.Config) (aerr : Q) :
  Trainer.countsMiss c aerr = true <->
  80 < aerr /\ Trainer.hitWindowMs c < aerr.
Proof.
  unfold Trainer.countsMiss. rewrite !andb_true_iff, !negb_true_iff.
  split.
  - intros [[[A B] C] D].
    destruct (Js.leb aerr 80) eqn:E1; [discriminate|].
    destruct (Js.leb aerr (Trainer.hitWindowMs c)) eqn:E2; [discriminate|].
    split.
    + apply Qnot_le_lt. intro H. apply leb_le in H. congruence.
    + apply Qnot_le_lt. intro H. apply leb_le in H. congruence.
  - intros [A B].
    assert (N : forall k, k < aerr -> Js.leb aerr k = false).
    { intros k Hk. destruct (Js.leb aerr k) eqn:E; [|reflexivity].
      apply leb_le in E. lra. }
    repeat split; apply N; lra.
Qed.

Lemma rate_MISS_iff (c : Trainer.Config) (aerr : Q) :
  Trainer.rate c aerr = Trainer.MISS <-> Trainer.countsMiss c aerr = true.
Proof.
  unfold Trainer.rate, Trainer.countsMiss.
  destruct (Js.leb aerr 20), (Js.leb aerr 40), (Js.leb aerr 80),
    (Js.leb aerr (Trainer.hitWindowMs c)); cbn; split; intro H;
    (reflexivity || discriminate H).
Qed.

(** X20. An accepted click (session running, gate open) is logged as a hit
    exactly when its absolute error is within the hit window, and counted as
    a miss exactly when that error exceeds both 80 ms and the hit window.
    With a hit window under 80 ms a click whose error lies between the
    window and 80 ms is therefore neither: it leaves hits and misses as they
    were. *)
Theorem click_accounting (c : Trainer.Config) (evtTimeMs : Q)
    (st : Trainer.TState) :
  Trainer.running st = true ->
  Trainer.rmbGate c && negb (Trainer.rmbDownRef st) = false ->
  let aerr :=
    Qabs (Trainer.timingError c (Trainer.startTimeRef st) evtTimeMs) in
  let st' := Trainer.registerClick c evtTimeMs st in
  (aerr <= Trainer.hitWindowMs c ->
   Trainer.misses st' = Trainer.misses st /\
   Trainer.hits st' =
     Trainer.lastN 200
       (Trainer.hits st ++
        [Trainer.mkHit evtTimeMs
           (Trainer.timingError c (Trainer.startTimeRef st) evtTimeMs)
           (Trainer.rate c aerr)
           (Trainer.nearestBeat c (Trainer.startTimeRef st) evtTimeMs)])) /\
  (Trainer.hitWindowMs c < aerr -> 80 < aerr ->
   Trainer.misses st' = S (Trainer.misses st) /\
   Trainer.hits st' = Trainer.hits st) /\
  (Trainer.hitWindowMs c < aerr -> aerr <= 80 ->
   Trainer.misses st' = Trainer.misses st /\
   Trainer.hits st' = Trainer.hits st).
Proof.
  intros Hr Hg. cbv zeta. unfold Trainer.registerClick.
  rewrite Hr, Hg. cbn [negb Trainer.misses Trainer.hits].
  unfold Js.abs.
  set (aerr := Qabs (Trainer.timingError c (Trainer.startTimeRef st)
                       evtTimeMs)).
  split; [|split].
  - intro Hw.
    assert (L : Js.leb aerr (Trainer.hitWindowMs c) = true)
      by now apply leb_le.
    assert (NM : Trainer.countsMiss c aerr = false).
    { destruct (Trainer.countsMiss c aerr) eqn:E; [|reflexivity].
      apply countsMiss_iff in E. lra. }
    rewrite L, NM. split; reflexivity.
  - intros Hw H80.
    assert (L : Js.leb aerr (Trainer.hitWindowMs c) = false).
    { destruct (Js.leb aerr (Trainer.hitWindowMs c)) eqn:E; [|reflexivity].
      apply leb_le in E. lra. }
    assert (M : Trainer.countsMiss c aerr = true)
      by (apply countsMiss_iff; split; assumption).
    rewrite L, M. split; reflexivity.
  - intros Hw H80.
    assert (L : Js.leb aerr (Trainer.hitWindowMs c) = false).
    { destruct (Js.leb aerr (Trainer.hitWindowMs c)) eqn:E; [|reflexivity].
      apply leb_le in E. lra. }
    assert (NM : Trainer.countsMiss c aerr = false).
    { destruct (Trainer.countsMiss c aerr) eqn:E; [|reflexivity].
      apply countsMiss_iff in E. lra. }
    rewrite L, NM. split; reflexivity.
Qed.

(** A 30 ms hit window at 380 BPM and a click 50 ms after a beat: no hit,
    no miss. *)
Lemma click_accounting_witness :
  let c :=
    {| Trainer.bpm := 380; Trainer.durationSec := 30;
       Trainer.hitWindowMs := 30; Trainer.rmbGate := false |} in
  let st' := Trainer.registerClick c 1050 (Trainer.begun 1000) in
  Trainer.misses st' = 0%nat /\ Trainer.hits st' = [].
Proof.
  cbv zeta.
  destruct (click_accounting
              {| Trainer.bpm := 380; Trainer.durationSec := 30;
                 Trainer.hitWindowMs := 30; Trainer.rmbGate := false |}
              1050 (Trainer.begun 1000)) as (_ & _ & Drop);
    [reflexivity | reflexivity |].
  apply Drop; vm_compute; (reflexivity || discriminate).
Defined.

(** ** The hit log and the recent clicks *)

Lemma lastN_length {A : Type} (n : nat) (l : list A) :
  (List.length (Trainer.lastN n l) <= n)%nat.
Proof. unfold Trainer.lastN. rewrite length_skipn. lia. Qed.

Lemma lastN_Forall {A : Type} (P : A -> Prop) (n : nat) (l : list A) :
  Forall P l -> Forall P (Trainer.lastN n l).
Proof.
  intro H. unfold Trainer.lastN. rewrite Forall_forall in *.
  intros x Hx. apply H.
  rewrite <- (firstn_skipn (List.length l - n) l).
  apply in_or_app. right. exact Hx.
Qed.

Lemma registerClick_hits (c : Trainer.Config) (x : Q) (st : Trainer.TState) :
  (List.length (Trainer.hits st) <= 200)%nat /\
  Forall (fun h => Trainer.rating h <> Trainer.MISS /\
                   Qabs (Trainer.err h) <= Trainer.hitWindowMs c)
         (Trainer.hits st) ->
  (List.length (Trainer.hits (Trainer.registerClick c x st)) <= 200)%nat /\
  Forall (fun h => Trainer.rating h <> Trainer.MISS /\
                   Qabs (Trainer.err h) <= Trainer.hitWindowMs c)
         (Trainer.hits (Trainer.registerClick c x st)).
Proof.
  intros [Hl Hf]. unfold Trainer.registerClick.
  destruct (negb (Trainer.running st)); [split; assumption|].
  destruct (Trainer.rmbGate c && negb (Trainer.rmbDownRef st));
    [split; assumption|].
  cbn [Trainer.hits].
  set (e := Trainer.timingError c (Trainer.startTimeRef st) x).
  destruct (Js.leb (Js.abs e) (Trainer.hitWindowMs c)) eqn:L;
    [|split; assumption].
  split; [apply lastN_length|].
  apply lastN_Forall. apply Forall_app. split; [exact Hf|].
  constructor; [|constructor]. cbn [Trainer.rating Trainer.err].
  apply leb_le in L. split; [|exact L].
  intro M. apply rate_MISS_iff in M. apply countsMiss_iff in M.
  unfold Js.abs in *. lra.
Qed.

(** X21. Through any series of clicks the hit log holds at most 200
    entries, none of them rated MISS, each with an absolute error within the
    hit window. *)
Theorem hit_log_invariant (c : Trainer.Config) (ts : list Q)
    (st : Trainer.TState) :
  (List.length (Trainer.hits st) <= 200)%nat ->
  Forall (fun h => Trainer.rating h <> Trainer.MISS /\
                   Qabs (Trainer.err h) <= Trainer.hitWindowMs c)
         (Trainer.hits st) ->
  let st' := Trainer.registerAll c ts st in
  (List.length (Trainer.hits st') <= 200)%nat /\
  Forall (fun h => Trainer.rating h <> Trainer.MISS /\
                   Qabs (Trainer.err h) <= Trainer.hitWindowMs c)
         (Trainer.hits st').
Proof.
  intros Hl Hf. cbv zeta. unfold Trainer.registerAll.
  revert st Hl Hf. induction ts as [|x ts IH]; intros st Hl Hf.
  - split; assumption.
  - cbn [fold_left].
    destruct (registerClick_hits c x st (conj Hl Hf)) as [Hl' Hf'].
    now apply IH.
Qed.

Lemma hit_log_invariant_witness :
  let st' :=
    Trainer.registerAll Trainer.defaults [1010; 1170; 1320]
      (Trainer.begun 1000) in
  (List.length (Trainer.hits st') <= 200)%nat /\
  Forall (fun h => Trainer.rating h <> Trainer.MISS /\
                   Qabs (Trainer.err h) <= 120)
         (Trainer.hits st').
Proof.
  cbv zeta.
  apply (hit_log_invariant Trainer.defaults [1010; 1170; 1320]
           (Trainer.begun 1000)).
  - simpl. lia.
  - constructor.
Defined.

Lemma shiftWhile_snoc (f : Q -> bool) (l : list Q) (x : Q) :
  f x = false ->
  let r := Trainer.shiftWhile f (l ++ [x]) in
  r <> [] /\ last r 0 = x /\ f (hd 0 r) = false /\
  (List.length r <= S (List.length l))%nat.
Proof.
  intro Hx. cbv zeta. induction l as [|a l IH].
  - cbn. rewrite Hx. cbn. repeat split; [discriminate | exact Hx | lia].
  - cbn [app Trainer.shiftWhile]. destruct (f a) eqn:Fa.
    + destruct IH as (A & B & C & D). repeat split; try assumption.
      cbn [List.length]. lia.
    + repeat split.
      * discriminate.
      * change (a :: l ++ [x]) with ((a :: l) ++ [x]). apply last_last.
      * exact Fa.
      * cbn [List.length]. rewrite length_app. simpl. lia.
Qed.

(** X22. After an accepted click the recent-click window is not empty, ends
    with that click and starts no earlier than 3 seconds before it; so the
    CPS computed from it is 0 or at least a third of the number of clicks it
    holds. *)
Theorem recent_clicks_window (c : Trainer.Config) (evtTimeMs : Q)
    (st : Trainer.TState) :
  Trainer.running st = true ->
  Trainer.rmbGate c && negb (Trainer.rmbDownRef st) = false ->
  let r := Trainer.recentClicksRef (Trainer.registerClick c evtTimeMs st) in
  r <> [] /\ last r 0 = evtTimeMs /\ evtTimeMs - 3000 <= hd 0 r /\
  exists v : Q,
    Trainer.cps r = Some v /\ (v == 0 \/ Js.len r / 3 <= v).
Proof.
  intros Hr Hg. cbv zeta. unfold Trainer.registerClick.
  rewrite Hr, Hg. cbn [negb Trainer.recentClicksRef].
  assert (Fx : (fun x => Js.ltb x (evtTimeMs - 3000)) evtTimeMs = false).
  { apply ltb_ge. lra. }
  destruct (shiftWhile_snoc (fun x => Js.ltb x (evtTimeMs - 3000))
              (Trainer.recentClicksRef st) evtTimeMs Fx)
    as (Hne & Hlast & Hhd & _).
  set (r := Trainer.shiftWhile (fun x => Js.ltb x (evtTimeMs - 3000))
              (Trainer.recentClicksRef st ++ [evtTimeMs])) in *.
  apply ltb_ge in Hhd.
  split; [exact Hne|]. split; [exact Hlast|]. split; [exact Hhd|].
  unfold Trainer.cps.
  destruct (List.length r <? 2)%nat; [eexists; split; [reflexivity | now left]|].
  set (span := (last r 0 - hd 0 r) / 1000).
  destruct (Js.leb span 0) eqn:L;
    [eexists; split; [reflexivity | now left]|].
  assert (Hs : 0 < span).
  { apply Qnot_le_lt. intro H. apply leb_le in H. congruence. }
  assert (Hs3 : span <= 3).
  { unfold span. rewrite Hlast. unfold Qdiv.
    change (/ 1000) with (1 # 1000). lra. }
  rewrite jsdiv_some by lra.
  eexists. split; [reflexivity|]. right.
  pose proof (num_nonneg (List.length r)) as Hn. rewrite <- len_num in Hn.
  apply Qle_shift_div_l; [exact Hs|].
  assert (E : Js.len r / 3 * span == Js.len r * (span / 3)) by field.
  rewrite E.
  assert (span / 3 <= 1) by (apply Qle_shift_div_r; lra).
  assert (Js.len r * (span / 3) <= Js.len r * 1).
  { apply Qmult_le_compat_nonneg.
    - split; [exact Hn | apply Qle_refl].
    - split; [apply Qle_shift_div_l; lra | assumption]. }
  lra.
Qed.

Lemma recent_clicks_window_witness :
  let r :=
    Trainer.recentClicksRef
      (Trainer.registerAll Trainer.defaults [1000; 2500; 4200]
         (Trainer.begun 1000)) in
  last r 0 = 4200 /\ 4200 - 3000 <= hd 0 r.
Proof.
  cbv zeta.
  destruct (recent_clicks_window Trainer.defaults 4200
              (Trainer.registerAll Trainer.defaults [1000; 2500]
                 (Trainer.begun 1000))) as (_ & A & B & _);
    [reflexivity | reflexivity |].
  split; [exact A | exact B].
Defined.

(** ** The trainer's summary *)

Lemma insertAsc_length (x : Q) (l : list Q) :
  List.length (Trainer.insertAsc x l) = S (List.length l).
Proof.
  induction l as [|y l IH]; [reflexivity|].
  cbn [Trainer.insertAsc]. destruct (Js.leb x y); cbn; [reflexivity|].
  now rewrite IH.
Qed.

Lemma insertAsc_In (x y : Q) (l : list Q) :
  In y (Trainer.insertAsc x l) -> y = x \/ In y l.
Proof.
  induction l as [|z l IH]; cbn [Trainer.insertAsc].
  - intros [H | []]. now left.
  - destruct (Js.leb x z).
    + intros [H | H]; [now left | now right].
    + intros [H | H]; [right; now left|].
      destruct (IH H) as [E | E]; [now left | right; now right].
Qed.

Lemma sortAsc_length (l : list Q) :
  List.length (Trainer.sortAsc l) = List.length l.
Proof.
  induction l as [|x l IH]; [reflexivity|].
  cbn [Trainer.sortAsc]. rewrite insertAsc_length, IH. reflexivity.
Qed.

Lemma sortAsc_In (y : Q) (l : list Q) : In y (Trainer.sortAsc l) -> In y l.
Proof.
  induction l as [|x l IH]; [intros []|].
  cbn [Trainer.sortAsc]. intro H.
  destruct (insertAsc_In _ _ _ H) as [E | E]; [now left | right; now apply IH].
Qed.

Lemma fold_sum_nonneg (l : list Q) (a : Q) :
  0 <= a -> Forall (fun x => 0 <= x) l -> 0 <= fold_left Qplus l a.
Proof.
  revert a. induction l as [|x l IH]; intros a Ha Hl; [exact Ha|].
  inversion Hl; subst. cbn [fold_left]. apply IH; [lra | assumption].
Qed.

(** The index [Math.floor(n * 0.95)] always falls inside an array of [n > 0]
    entries. *)
Lemma p95_index_in_range (n : nat) :
  (0 < n)%nat -> (Z.to_nat (Qfloor (Js.num n * (95 # 100))) < n)%nat.
Proof.
  intro Hn. pose proof (num_pos n Hn) as Hp.
  assert (Lt : (Qfloor (Js.num n * (95 # 100)) < Z.of_nat n)%Z).
  { rewrite Zlt_Qlt. pose proof (Qfloor_le (Js.num n * (95 # 100))) as Fl.
    fold (Js.num n). lra. }
  assert (Ge : (0 <= Qfloor (Js.num n * (95 # 100)))%Z).
  { rewrite <- (Qfloor_Z 0). apply Qfloor_resp_le.
    change (inject_Z 0) with 0. lra. }
  lia.
Qed.

(** X23. As soon as one hit is logged the summary exists and all its
    figures are defined: the mean absolute error is a non-negative number,
    the 95th-percentile entry is read inside the sorted array and is one of
    the logged absolute errors, and the accuracy is a whole percentage
    between 0 and 100 of hits among hits and misses.  With nothing logged
    and no miss there is no summary. *)
Theorem summary_well_defined (hs : list Trainer.Hit) (ms : nat) :
  (hs <> [] ->
   exists (s : Trainer.Summary) (m v a : Q),
     Trainer.summary hs ms = Some s /\
     Trainer.mean s = Some m /\ 0 <= m /\
     Trainer.p95 s = Some v /\
     In v (map (fun h => Qabs (Trainer.err h)) hs) /\
     Trainer.acc s = Some a /\ 0 <= a /\ a <= 100 /\
     Trainer.total s = (List.length hs + ms)%nat) /\
  (hs = [] -> ms = 0%nat -> Trainer.summary hs ms = None).
Proof.
  split.
  - intro Hne.
    assert (Hlen : (0 < List.length hs)%nat)
      by (destruct hs; [contradiction | simpl; lia]).
    unfold Trainer.summary.
    assert (T : Js.truthy (Js.len hs) = true).
    { apply truthy_neq. pose proof (len_pos hs Hne). lra. }
    rewrite T. cbn [negb andb].
    set (abs := map (fun h => Js.abs (Trainer.err h)) hs).
    assert (La : List.length abs = List.length hs)
      by (unfold abs; apply length_map).
    assert (Ta : Js.truthy (Js.len abs) = true).
    { unfold Js.len. rewrite La. exact T. }
    assert (Ts : Js.truthy (Js.len (Trainer.sortAsc abs)) = true).
    { unfold Js.len. rewrite sortAsc_length, La. exact T. }
    rewrite Ta, Ts.
    assert (Pa : 0 < Js.len abs).
    { rewrite len_num, La. now apply num_pos. }
    rewrite (jsdiv_some (Js.sum abs) (Js.len abs)) by lra.
    (* the percentile *)
    assert (Idx : (Z.to_nat (Qfloor (Js.len (Trainer.sortAsc abs)
                                     * (95 # 100)))
                   < List.length (Trainer.sortAsc abs))%nat).
    { rewrite len_num. apply p95_index_in_range.
      rewrite sortAsc_length, La. exact Hlen. }
    destruct (nth_error (Trainer.sortAsc abs)
                (Z.to_nat (Qfloor (Js.len (Trainer.sortAsc abs)
                                   * (95 # 100))))) as [v|] eqn:Nth;
      [|apply nth_error_None in Nth; lia].
    (* the accuracy *)
    set (tot := (List.length hs + ms)%nat).
    assert (Pt : 0 < Js.num tot) by (apply num_pos; unfold tot; lia).
    assert (Tt : Js.truthy (Js.num tot) = true) by (apply truthy_neq; lra).
    rewrite Tt. rewrite (jsdiv_some (Js.len hs) (Js.num tot)) by lra.
    eexists _, _, v, _. split; [reflexivity|].
    cbn [Trainer.mean Trainer.p95 Trainer.acc Trainer.total].
    split; [reflexivity|]. split.
    { apply Qle_shift_div_l; [exact Pa|].
      assert (0 * Js.len abs == 0) as -> by ring.
      unfold Js.sum. apply fold_sum_nonneg; [lra|].
      unfold abs. apply Forall_forall. intros x Hx.
      apply in_map_iff in Hx. destruct Hx as (h & <- & _).
      apply Qabs_nonneg. }
    split; [reflexivity|]. split.
    { apply nth_error_In in Nth. apply sortAsc_In in Nth. exact Nth. }
    split; [reflexivity|].
    assert (Q0 : 0 <= Js.len hs / Js.num tot).
    { apply Qle_shift_div_l; [exact Pt|].
      pose proof (num_nonneg (List.length hs)). rewrite len_num. lra. }
    assert (Q1 : Js.len hs / Js.num tot <= 1).
    { apply Qle_shift_div_r; [exact Pt|].
      rewrite len_num.
      assert (Js.num (List.length hs) <= Js.num tot)
        by (apply num_le; unfold tot; lia).
      lra. }
    split; [apply round_nonneg; lra|]. split; [|reflexivity].
    assert (R : Js.round (Js.len hs / Js.num tot * 100) <= Js.round 100)
      by (apply round_le; lra).
    change 100 with (Js.num 100) in R at 2. rewrite round_whole in R.
    exact R.
  - intros -> ->. reflexivity.
Qed.

Lemma summary_well_defined_witness :
  exists (s : Trainer.Summary) (v a : Q),
    Trainer.summary
      (Trainer.hits (Trainer.registerAll Trainer.defaults [1010; 1170; 1320]
                       (Trainer.begun 1000))) 0 = Some s /\
    Trainer.p95 s = Some v /\ Trainer.acc s = Some a /\ a <= 100.
Proof.
  destruct (summary_well_defined
              (Trainer.hits
                 (Trainer.registerAll Trainer.defaults [1010; 1170; 1320]
                    (Trainer.begun 1000))) 0) as [Def _].
  destruct Def as (s & m & v & a & Hs & _ & _ & Hv & _ & Ha & _ & Ha1 & _).
  - vm_compute. discriminate.
  - exists s, v, a. repeat split; assumption.
Defined.

(** ** The right-button gate, the tally and the progress bar *)

(** X25. With the RMB gate on, a left click during a running session is
    registered only while the right button is held: after a right-button
    press it is registered (it becomes the latest recent click), after the
    release it changes nothing; and a key event that is an auto-repeat never
    registers. *)
Theorem rmb_gate (c : Trainer.Config) (t0 now : Q) (st : Trainer.TState) :
  Trainer.rmbGate c = true -> Trainer.running st = true ->
  let held := Trainer.onMouseDown c 2 t0 st in
  let released := Trainer.onMouseUp 2 held in
  last (Trainer.recentClicksRef (Trainer.onMouseDown c 0 now held)) 0 = now /\
  Trainer.onMouseDown c 0 now released = released /\
  Trainer.onKeyDown c false true now released = released /\
  Trainer.onKeyDown c true true now held = held.
Proof.
  intros Hg Hr. cbv zeta.
  split; [|split; [|split]].
  - cbn [Trainer.onMouseDown Nat.eqb].
    assert (Fx : (fun x => Js.ltb x (now - 3000)) now = false)
      by (apply ltb_ge; lra).
    unfold Trainer.registerClick. cbn [Trainer.running Trainer.rmbDownRef].
    rewrite Hr, Hg. cbn [negb andb Trainer.recentClicksRef].
    destruct (shiftWhile_snoc (fun x => Js.ltb x (now - 3000))
                (Trainer.recentClicksRef st) now Fx) as (_ & L & _).
    exact L.
  - cbn [Trainer.onMouseDown Trainer.onMouseUp Nat.eqb].
    unfold Trainer.registerClick. cbn [Trainer.running Trainer.rmbDownRef].
    rewrite Hr, Hg. reflexivity.
  - cbn [Trainer.onKeyDown Trainer.onMouseDown Trainer.onMouseUp Nat.eqb].
    unfold Trainer.registerClick. cbn [Trainer.running Trainer.rmbDownRef].
    rewrite Hr, Hg. reflexivity.
  - reflexivity.
Qed.

Lemma rmb_gate_witness :
  let c :=
    {| Trainer.bpm := 380; Trainer.durationSec := 30;
       Trainer.hitWindowMs := 120; Trainer.rmbGate := true |} in
  let released :=
    Trainer.onMouseUp 2 (Trainer.onMouseDown c 2 1100 (Trainer.begun 1000)) in
  Trainer.onMouseDown c 0 1200 released = released.
Proof.
  cbv zeta.
  apply (rmb_gate
           {| Trainer.bpm := 380; Trainer.durationSec := 30;
              Trainer.hitWindowMs := 120; Trainer.rmbGate := true |}
           1100 1200 (Trainer.begun 1000)); reflexivity.
Defined.

Lemma bump_total (r : Trainer.Rating) (m : list (Trainer.Rating * nat)) :
  list_sum (map snd (Trainer.bump r m)) = S (list_sum (map snd m)).
Proof.
  induction m as [|[k n] m IH]; [reflexivity|].
  cbn [Trainer.bump]. unfold list_sum in *.
  destruct (Trainer.Rating_eqb k r); cbn [map snd fold_right]; [lia|].
  rewrite IH. lia.
Qed.

Lemma bump_keys (r : Trainer.Rating) (m : list (Trainer.Rating * nat)) :
  NoDup (map fst m) ->
  NoDup (map fst (Trainer.bump r m)) /\
  forall k, In k (map fst (Trainer.bump r m)) -> k = r \/ In k (map fst m).
Proof.
  induction m as [|[k n] m IH]; intro H.
  - cbn. split; [repeat constructor; intros [] | intros k [E | []]; now left].
  - cbn [Trainer.bump]. inversion H as [|? ? Hk Hm]; subst.
    destruct (Trainer.Rating_eqb k r) eqn:E; cbn [map fst].
    + split; [exact H | intros k' Hk'; now right].
    + destruct (IH Hm) as [ND Keys]. split.
      * constructor; [|exact ND].
        intro Hin. destruct (Keys _ Hin) as [-> | Hin'].
        -- destruct r; discriminate E.
        -- contradiction.
      * intros k' [<- | Hk']; [right; now left|].
        destruct (Keys _ Hk') as [-> | Hin']; [now left | right; now right].
Qed.

(** X26. The rating tally of a summary counts every logged hit exactly once
    and lists each rating at most once: its counts add up to the number of
    hits. *)
Theorem summary_counts_total (hs : list Trainer.Hit) (ms : nat) :
  hs <> [] ->
  exists s : Trainer.Summary,
    Trainer.summary hs ms = Some s /\
    list_sum (map snd (Trainer.counts s)) = List.length hs /\
    NoDup (map fst (Trainer.counts s)).
Proof.
  intro Hne. unfold Trainer.summary.
  assert (T : Js.truthy (Js.len hs) = true).
  { apply truthy_neq. pose proof (len_pos hs Hne). lra. }
  rewrite T. cbn [negb andb]. eexists. split; [reflexivity|].
  cbn [Trainer.counts].
  assert (G : forall (l : list Trainer.Hit) (m : list (Trainer.Rating * nat)),
            NoDup (map fst m) ->
            list_sum (map snd
                        (fold_left (fun m h => Trainer.bump (Trainer.rating h) m)
                           l m))
            = (List.length l + list_sum (map snd m))%nat /\
            NoDup (map fst
                     (fold_left (fun m h => Trainer.bump (Trainer.rating h) m)
                        l m))).
  { induction l as [|h l IH]; intros m Hm; [split; [reflexivity | exact Hm]|].
    cbn [fold_left].
    destruct (bump_keys (Trainer.rating h) m Hm) as [ND _].
    destruct (IH _ ND) as [A B]. split; [|exact B].
    rewrite A, bump_total. cbn. lia. }
  destruct (G hs [] (NoDup_nil _)) as [A B].
  split; [rewrite A; cbn; lia | exact B].
Qed.

Lemma summary_counts_total_witness :
  exists s : Trainer.Summary,
    Trainer.summary
      (Trainer.hits (Trainer.registerAll Trainer.defaults [1010; 1170; 1320]
                       (Trainer.begun 1000))) 0 = Some s /\
    list_sum (map snd (Trainer.counts s)) = 3%nat.
Proof.
  destruct (summary_counts_total
              (Trainer.hits
                 (Trainer.registerAll Trainer.defaults [1010; 1170; 1320]
                    (Trainer.begun 1000))) 0) as (s & Hs & Hc & _).
  - vm_compute. discriminate.
  - exists s. split; [exact Hs|]. rewrite Hc. vm_compute. reflexivity.
Defined.

(** X27. The progress shown is never more than 1, and while the session runs
    with a positive duration it is a number between 0 and 1; a duration of 0
    shows 0 instead of dividing by it. *)
Theorem progress_is_a_fraction (c : Trainer.Config) (now : Q)
    (st : Trainer.TState) :
  (0 < Trainer.durationSec c ->
   exists p : Q,
     Trainer.progress c (Trainer.elapsedMs now st) = Some p /\ p <= 1 /\
     (Trainer.running st = true -> 0 <= p)) /\
  (Trainer.durationSec c == 0 ->
   Trainer.progress c (Trainer.elapsedMs now st) = Some 0).
Proof.
  unfold Trainer.progress. split.
  - intro Hd.
    assert (Pt : 0 < Trainer.durationSec c * 1000) by lra.
    assert (T : Js.truthy (Trainer.durationSec c * 1000) = true)
      by (apply truthy_neq; lra).
    rewrite T, jsdiv_some by lra. cbn [option_map].
    eexists. split; [reflexivity|]. split; [apply Q.le_min_l|].
    intro Hr. unfold Trainer.elapsedMs. rewrite Hr.
    apply Q.min_glb; [lra|].
    apply Qle_shift_div_l; [exact Pt|].
    pose proof (Q.le_max_l 0 (now - Trainer.startTimeRef st)).
    unfold Js.max. lra.
  - intro Hz.
    assert (T : Js.truthy (Trainer.durationSec c * 1000) = false)
      by (apply truthy_eq; rewrite Hz; reflexivity).
    rewrite T. reflexivity.
Qed.

Lemma progress_is_a_fraction_witness :
  exists p : Q,
    Trainer.progress Trainer.defaults
      (Trainer.elapsedMs 16000 (Trainer.begun 1000)) = Some p /\
    p <= 1 /\ 0 <= p.
Proof.
  destruct (progress_is_a_fraction Trainer.defaults 16000
              (Trainer.begun 1000)) as [Pos _].
  destruct Pos as (p & Hp & H1 & H0); [reflexivity|].
  exists p. split; [exact Hp|]. split; [exact H1 | apply H0; reflexivity].
Defined.
